(** * aisuite-js: provider wrappers, adapters and dispatch

    A shallow embedding of the TypeScript sources of the Mistral and Groq
    providers (providers/mistral/provider.ts, providers/mistral/adapters.ts,
    providers/groq/provider.ts, providers/groq/adapters.ts) together with the
    parts of the library they rely on.

    JavaScript effects are modelled by a small monad [M]: a computation reads
    an environment [Env] (the behaviour of the vendor SDKs, the clock and the
    random id source), threads a [World] (the observable trace, the object
    allocator, the counters of the oracles) and either returns or throws. *)

From Stdlib Require Import String Ascii List ZArith Bool Lia.
Import ListNotations.
Local Open Scope string_scope.
Local Open Scope list_scope.

(* ===================================================================== *)
(** ** JavaScript strings *)
(* ===================================================================== *)

Module Js.

(** [s.startsWith(p)] *)
Fixpoint startsWith (p s : string) : bool :=
  match p, s with
  | EmptyString, _ => true
  | String a p', String b s' => if Ascii.eqb a b then startsWith p' s' else false
  | String _ _, EmptyString => false
  end.

(** [s.slice(n)] *)
Fixpoint slice (n : nat) (s : string) : string :=
  match n, s with
  | O, _ => s
  | S n', String _ s' => slice n' s'
  | S _, EmptyString => EmptyString
  end.

(** [s.replace(pat, rep)] with a string pattern: only the first occurrence
    of [pat] is replaced ([rep] holds no [$] pattern in the sources). *)
Fixpoint replace (pat rep s : string) : string :=
  if startsWith pat s then rep ++ slice (String.length pat) s
  else match s with
       | EmptyString => EmptyString
       | String c s' => String c (replace pat rep s')
       end.

(** Does the character [c] occur in [s]? *)
Fixpoint includes (c : ascii) (s : string) : bool :=
  match s with
  | EmptyString => false
  | String a s' => if Ascii.eqb a c then true else includes c s'
  end.

(** Concatenation of a list of strings, [parts.join] with the empty separator. *)
Definition join (parts : list string) : string :=
  fold_right String.append EmptyString parts.

End Js.

(* ===================================================================== *)
(** ** Canonical type model (src/types) *)
(* ===================================================================== *)

(** Tool definitions, tool calls, tool choices and the numeric sampling
    parameters are opaque to the library and forwarded verbatim; they are kept
    as their JSON text. *)
Definition Json := string.

Inductive Role := system | user | assistant | tool.

Record ChatMessage := mkChatMessage {
  role : Role;
  content : option string;
  name : option string;
  tool_calls : option (list Json);
  tool_call_id : option string
}.

Record ChatCompletionRequest := mkRequest {
  model : string;
  messages : list ChatMessage;
  temperature : option Json;
  max_tokens : option Json;
  top_p : option Json;
  frequency_penalty : option Json;
  presence_penalty : option Json;
  stop : option Json;
  user_id : option string;
  stream : option bool;
  tools : option (list Json);
  tool_choice : option Json
}.

Record Usage := mkUsage {
  prompt_tokens : Z;
  completion_tokens : Z;
  total_tokens : Z
}.

(** The zero-valued usage record. *)
Definition zero_usage : Usage :=
  {| prompt_tokens := 0; completion_tokens := 0; total_tokens := 0 |}.

Record Choice := mkChoice {
  index : Z;
  message : ChatMessage;
  finish_reason : option string
}.

Record ChatCompletionResponse := mkResponse {
  id : string;
  object : string;
  created : Z;
  response_model : string;
  choices : list Choice;
  usage : Usage
}.

(** The partial message of a streamed chunk. *)
Record Delta := mkDelta {
  delta_role : option Role;
  delta_content : option string;
  delta_tool_calls : option (list Json)
}.

Record ChunkChoice := mkChunkChoice {
  chunk_index : Z;
  delta : Delta;
  chunk_finish_reason : option string
}.

Record ChatCompletionChunk := mkChunk {
  chunk_id : string;
  chunk_object : string;
  chunk_created : Z;
  chunk_model : string;
  chunk_choices : list ChunkChoice
}.

(** [options?: RequestOptions]; the abort signal is a token. *)
Record RequestOptions := mkOptions {
  signal : option nat
}.

(** JavaScript truthiness of an optional boolean field. *)
Definition truthy (b : option bool) : bool :=
  match b with
  | Some true => true
  | _ => false
  end.

(* ===================================================================== *)
(** ** Errors and thrown values (src/core/errors) *)
(* ===================================================================== *)

(** The error classes.  [AISuiteError] is constructed in the providers as
    [new AISuiteError(message, provider, code)]; [PlainError] stands for any
    [Error] that is not an [AISuiteError] (the engine's [TypeError]
    included). *)
Inductive ErrorObject :=
| AISuiteError (message provider code : string)
| ProviderNotConfiguredError (provider : string)
| PlainError (message : string).

(** A thrown JavaScript value: an error object living at an address (object
    identity is the address), or a value that is not an [Error] at all, such
    as a bare string. *)
Inductive Thrown :=
| ThrownObject (addr : nat) (obj : ErrorObject)
| ThrownValue (v : string).

(** [error instanceof AISuiteError].

    Modelled from the spec: core/errors.ts is absent; the spec lists
    ProviderNotConfigured among the kinds of the canonical error, so the
    dispatch error counts as one. *)
Definition instanceof_AISuiteError (error : Thrown) : bool :=
  match error with
  | ThrownObject _ (AISuiteError _ _ _) => true
  | ThrownObject _ (ProviderNotConfiguredError _) => true
  | _ => false
  end.

(** [error.message] of an error object.

    Modelled from the spec: the message text of the dispatch error is not
    given beyond that it names the vendor; the vendor key stands for it. *)
Definition error_message (obj : ErrorObject) : string :=
  match obj with
  | AISuiteError m _ _ => m
  | ProviderNotConfiguredError p => p
  | PlainError m => m
  end.

(** [error instanceof Error ? error.message : "Unknown error"]: the thrown
    objects are the instances of [Error], the bare values are not. *)
Definition message_or_unknown (error : Thrown) : string :=
  match error with
  | ThrownObject _ obj => error_message obj
  | ThrownValue _ => "Unknown error"
  end.


(* ===================================================================== *)
(** ** The vendor SDKs, at the boundary *)
(* ===================================================================== *)

(** How a promise returned by an SDK call settles. *)
Inductive Settled (A : Type) :=
| Resolved (a : A)
| Rejected (e : Thrown).
Arguments Resolved {A} a.
Arguments Rejected {A} e.

(** A finite native stream: the events it delivers, then either its end or a
    failure raised while waiting for the next event. *)
Record NativeStream (E : Type) := mkStream {
  events : list E;
  ending : option Thrown
}.
Arguments mkStream {E} events ending.
Arguments events {E} _.
Arguments ending {E} _.

(** Types of [@mistralai/mistralai]. *)
Module MistralSdk.

Record Message := mkMessage {
  role : Role;
  content : option string;
  tool_calls : option (list Json)
}.

Record ChatRequest := mkChatRequest {
  model : string;
  messages : list Message;
  tools : option (list Json);
  temperature : option Json;
  max_tokens : option Json;
  top_p : option Json;
  stream : option bool
}.

Record ResponseChoice := mkResponseChoice {
  index : Z;
  message : Message;
  finish_reason : option string
}.

(** The SDK declares [usage: TokenUsage]; the object received at run time
    can lack the field, which reads as [undefined]. *)
Record ChatCompletionResponse := mkChatCompletionResponse {
  id : string;
  object : string;
  created : Z;
  response_model : string;
  choices : list ResponseChoice;
  usage : option Usage
}.

Record ChunkChoice := mkChunkChoice {
  chunk_index : Z;
  delta : Delta;
  chunk_finish_reason : option string
}.

Record ChatCompletionResponseChunk := mkResponseChunk {
  chunk_id : string;
  chunk_object : string;
  chunk_created : Z;
  chunk_model : string;
  chunk_choices : list ChunkChoice
}.

End MistralSdk.

(** Types of [groq-sdk]. *)
Module GroqSdk.

Record CreateParams := mkCreateParams {
  model : string;
  messages : list ChatMessage;
  temperature : option Json;
  max_tokens : option Json;
  stream : option bool;
  tools : option (list Json);
  tool_choice : option Json
}.

Record CompletionChoice := mkCompletionChoice {
  index : Z;
  message : ChatMessage;
  finish_reason : option string
}.

(** [usage?: CompletionUsage] is optional in the SDK. *)
Record ChatCompletion := mkChatCompletion {
  id : string;
  object : string;
  created : Z;
  response_model : string;
  choices : list CompletionChoice;
  usage : option Usage
}.

Record ChunkChoice := mkChunkChoice {
  chunk_index : Z;
  delta : Delta;
  chunk_finish_reason : option string
}.

Record ChatCompletionChunk := mkCompletionChunk {
  chunk_id : string;
  chunk_object : string;
  chunk_created : Z;
  chunk_model : string;
  chunk_choices : list ChunkChoice
}.

(** [client.chat.completions.create] is the one entry point of the SDK: it
    resolves with a completion or with a stream of chunks. *)
Inductive CreateResult :=
| Completion (c : ChatCompletion)
| Stream (s : NativeStream ChatCompletionChunk).

End GroqSdk.

(* ===================================================================== *)
(** ** Worlds, environments and the effect monad *)
(* ===================================================================== *)

(** What a run does that can be observed from outside. *)
Inductive Event :=
| MistralChat (req : MistralSdk.ChatRequest)
| MistralChatStream (req : MistralSdk.ChatRequest)
| GroqCreate (req : GroqSdk.CreateParams)
| GenerateId (streamId : string)
| AddAbortListener (sig : nat)
| Yield (chunk : ChatCompletionChunk).

Record World := mkWorld {
  trace : list Event;      (* oldest event first *)
  next_addr : nat;         (* next free object address *)
  clock_reads : nat;       (* calls of Date.now() so far *)
  ids_generated : nat      (* calls of generateId() so far *)
}.

(** The collaborators: the clock, the random id source behind [generateId]
    and the vendor SDK handles owned by the providers. *)
Record Env := mkEnv {
  date_now : nat -> Z;
  id_source : nat -> string;
  mistral_chat : MistralSdk.ChatRequest -> Settled MistralSdk.ChatCompletionResponse;
  mistral_chatStream :
    MistralSdk.ChatRequest -> Settled (NativeStream MistralSdk.ChatCompletionResponseChunk);
  groq_create : GroqSdk.CreateParams -> Settled GroqSdk.CreateResult
}.

Inductive Outcome (A : Type) :=
| Return (a : A)
| Throw (e : Thrown).
Arguments Return {A} a.
Arguments Throw {A} e.

Definition M (A : Type) : Type := Env -> World -> Outcome A * World.

Definition ret {A} (a : A) : M A := fun _ w => (Return a, w).

Definition bind {A B} (m : M A) (k : A -> M B) : M B :=
  fun env w =>
    match m env w with
    | (Return a, w') => k a env w'
    | (Throw e, w') => (Throw e, w')
    end.

Declare Scope js_scope.
Delimit Scope js_scope with js.
Notation "x <- c ;; k" := (bind c (fun x => k))
  (at level 61, c at next level, right associativity) : js_scope.
Notation "c ;; k" := (bind c (fun _ => k))
  (at level 61, right associativity) : js_scope.
Local Open Scope js_scope.

(** [throw e] *)
Definition throw {A} (e : Thrown) : M A := fun _ w => (Throw e, w).

(** [try { body } catch (error) { handler }] *)
Definition try_catch {A} (body : M A) (handler : Thrown -> M A) : M A :=
  fun env w =>
    match body env w with
    | (Return a, w') => (Return a, w')
    | (Throw e, w') => handler e env w'
    end.

(** [if (b) { m }] *)
Definition when (b : bool) (m : M unit) : M unit :=
  if b then m else ret tt.

Definition emit (ev : Event) : M unit :=
  fun _ w => (Return tt,
              mkWorld (trace w ++ [ev]) (next_addr w) (clock_reads w) (ids_generated w)).

(** [throw new C(...)]: the error object is allocated at a fresh address. *)
Definition throw_new {A} (obj : ErrorObject) : M A :=
  fun _ w => (Throw (ThrownObject (next_addr w) obj),
              mkWorld (trace w) (S (next_addr w)) (clock_reads w) (ids_generated w)).

(** [Date.now()], in milliseconds. *)
Definition Date_now : M Z :=
  fun env w => (Return (date_now env (clock_reads w)),
                mkWorld (trace w) (next_addr w) (S (clock_reads w)) (ids_generated w)).

(** [Math.floor(Date.now() / 1000)] *)
Definition unix_seconds : M Z :=
  now <- Date_now ;; ret (now / 1000)%Z.

(** [generateId()] of utils/streaming.

    Modelled from the spec: utils/streaming.ts is absent; the generator draws
    from a random source, taken here as the oracle [id_source] of the
    environment, whose n-th answer is the n-th id handed out. *)
Definition generateId : M string :=
  fun env w =>
    let streamId := id_source env (ids_generated w) in
    (Return streamId,
     mkWorld (trace w ++ [GenerateId streamId]) (next_addr w) (clock_reads w)
             (S (ids_generated w))).

(** [await p] for a promise that settles as [s]. *)
Definition await {A} (s : Settled A) : M A :=
  match s with
  | Resolved a => ret a
  | Rejected e => throw e
  end.

(** Reading a property of [o], which throws a [TypeError] when [o] is
    [undefined] (the message is V8's). *)
Definition property_of {A} (prop : string) (o : option A) : M A :=
  match o with
  | Some a => ret a
  | None =>
      throw_new (PlainError
        ("Cannot read properties of undefined (reading '" ++ prop ++ "')"))
  end.

(** [for await (const x of stream) { body(x) }] *)
Fixpoint for_await_events {E} (evs : list E) (fin : option Thrown)
         (body : E -> M unit) : M unit :=
  match evs with
  | [] => match fin with
          | None => ret tt
          | Some e => throw e
          end
  | x :: rest => body x ;; for_await_events rest fin body
  end.

Definition for_await {E} (s : NativeStream E) (body : E -> M unit) : M unit :=
  for_await_events (events s) (ending s) body.

(** [yield c] of an async generator that is drained by its consumer. *)
Definition yield (c : ChatCompletionChunk) : M unit := emit (Yield c).

(** [options?.signal] *)
Definition signal_of (options : option RequestOptions) : option nat :=
  match options with
  | Some o => signal o
  | None => None
  end.

(** [if (options?.signal) options.signal.addEventListener("abort", ...)];
    the listener only runs when the caller aborts. *)
Definition listen_abort (options : option RequestOptions) : M unit :=
  match signal_of options with
  | Some sg => emit (AddAbortListener sg)
  | None => ret tt
  end.


(* ===================================================================== *)
(** ** Mistral: adapters and provider *)
(* ===================================================================== *)

Module Mistral.

Definition adaptMessage (message : ChatMessage) : MistralSdk.Message :=
  {| MistralSdk.role := role message;
     MistralSdk.content := content message;
     MistralSdk.tool_calls := tool_calls message |}.

Definition adaptRequest (request : ChatCompletionRequest) : MistralSdk.ChatRequest :=
  let tools :=
    match tools request with
    | Some (t :: ts) => Some (t :: ts)
    | _ => None
    end in
  {| MistralSdk.model := model request;
     MistralSdk.messages := map adaptMessage (messages request);
     MistralSdk.tools := tools;
     MistralSdk.temperature := temperature request;
     MistralSdk.max_tokens := max_tokens request;
     MistralSdk.top_p := top_p request;
     MistralSdk.stream := stream request |}.

(** The fields of the object literal are evaluated in order: the clock is
    read, then [response.choices[0]] and [response.usage] are dereferenced. *)
Definition adaptResponse (response : MistralSdk.ChatCompletionResponse)
  : M ChatCompletionResponse :=
  seconds <- unix_seconds ;;
  first <- property_of "message" (hd_error (MistralSdk.choices response)) ;;
  u <- property_of "prompt_tokens" (MistralSdk.usage response) ;;
  ret {| id := MistralSdk.id response;
         object := "chat.completion";
         created := seconds;
         response_model := MistralSdk.response_model response;
         choices :=
           [ {| index := 0;
                message :=
                  {| role := assistant;
                     content := MistralSdk.content (MistralSdk.message first);
                     name := None;
                     tool_calls := None;
                     tool_call_id := None |};
                finish_reason := MistralSdk.finish_reason first |} ];
         usage :=
           {| prompt_tokens := prompt_tokens u;
              completion_tokens := completion_tokens u;
              total_tokens := total_tokens u |} |}.

Definition adaptStreamResponse (response : MistralSdk.ChatCompletionResponseChunk)
           (streamId : string) : M ChatCompletionChunk :=
  seconds <- unix_seconds ;;
  first <- property_of "delta" (hd_error (MistralSdk.chunk_choices response)) ;;
  ret {| chunk_id := streamId;
         chunk_object := "chat.completion.chunk";
         chunk_created := seconds;
         chunk_model := MistralSdk.chunk_model response;
         chunk_choices :=
           [ {| chunk_index := 0;
                delta :=
                  {| delta_role := Some assistant;
                     delta_content := delta_content (MistralSdk.delta first);
                     delta_tool_calls := delta_tool_calls (MistralSdk.delta first) |};
                chunk_finish_reason := MistralSdk.chunk_finish_reason first |} ] |}.

(** [public readonly name = "mistral"] *)
Definition name : string := "mistral".

(** [await this.client.chat(mistralRequest)] *)
Definition client_chat (req : MistralSdk.ChatRequest)
  : M MistralSdk.ChatCompletionResponse :=
  emit (MistralChat req) ;;
  (fun env => await (mistral_chat env req) env).

(** [await this.client.chatStream(mistralRequest)] *)
Definition client_chatStream (req : MistralSdk.ChatRequest)
  : M (NativeStream MistralSdk.ChatCompletionResponseChunk) :=
  emit (MistralChatStream req) ;;
  (fun env => await (mistral_chatStream env req) env).

Definition chatCompletion (request : ChatCompletionRequest)
           (options : option RequestOptions) : M ChatCompletionResponse :=
  try_catch
    (when (truthy (stream request))
       (throw_new (AISuiteError
          "Streaming is not supported in non-streaming method. Set stream: false or use streamChatCompletion method."
          name
          "STREAMING_NOT_SUPPORTED")) ;;
     let mistralRequest := adaptRequest request in
     completion <- client_chat mistralRequest ;;
     adaptResponse completion)
    (fun error =>
       if instanceof_AISuiteError error then throw error
       else
         throw_new (AISuiteError
           ("Mistral API error: " ++ message_or_unknown error)
           name
           "API_ERROR")).

(** The async generator, drained by its consumer: every [yield] is an event
    of the trace. *)
Definition streamChatCompletion (request : ChatCompletionRequest)
           (options : option RequestOptions) : M unit :=
  try_catch
    (let mistralRequest := adaptRequest request in
     stream <- client_chatStream mistralRequest ;;
     streamId <- generateId ;;
     listen_abort options ;;
     for_await stream (fun chunk =>
       c <- adaptStreamResponse chunk streamId ;;
       yield c))
    (fun error =>
       throw_new (AISuiteError
         ("Mistral streaming error: " ++ message_or_unknown error)
         name
         "STREAMING_ERROR")).

End Mistral.

(* ===================================================================== *)
(** ** Groq: adapters and provider *)
(* ===================================================================== *)

Module Groq.

(** [public readonly name = "groq"] *)
Definition name : string := "groq".

Definition adaptRequest (request : ChatCompletionRequest) : GroqSdk.CreateParams :=
  {| GroqSdk.model := Js.replace "groq:" EmptyString (model request);
     GroqSdk.messages := messages request;
     GroqSdk.temperature := temperature request;
     GroqSdk.max_tokens := max_tokens request;
     GroqSdk.stream := stream request;
     GroqSdk.tools := tools request;
     GroqSdk.tool_choice := tool_choice request |}.

Definition adaptResponse (response : GroqSdk.ChatCompletion) : ChatCompletionResponse :=
  {| id := GroqSdk.id response;
     object := GroqSdk.object response;
     created := GroqSdk.created response;
     response_model := "groq:" ++ GroqSdk.response_model response;
     choices :=
       map (fun choice =>
              {| index := GroqSdk.index choice;
                 message := GroqSdk.message choice;
                 finish_reason := GroqSdk.finish_reason choice |})
           (GroqSdk.choices response);
     usage :=
       match GroqSdk.usage response with
       | Some u => u
       | None => zero_usage
       end |}.

Definition adaptStreamResponse (chunk : GroqSdk.ChatCompletionChunk)
           (streamId : string) : M ChatCompletionChunk :=
  now <- Date_now ;;
  ret {| chunk_id := streamId;
         chunk_object := "chat.completion.chunk";
         chunk_created := now;
         chunk_model := "groq:" ++ GroqSdk.chunk_model chunk;
         chunk_choices :=
           map (fun choice =>
                  {| chunk_index := GroqSdk.chunk_index choice;
                     delta := GroqSdk.delta choice;
                     chunk_finish_reason := GroqSdk.chunk_finish_reason choice |})
               (GroqSdk.chunk_choices chunk) |}.

(** [await this.client.chat.completions.create(groqRequest)] *)
Definition client_create (req : GroqSdk.CreateParams) : M GroqSdk.CreateResult :=
  emit (GroqCreate req) ;;
  (fun env => await (groq_create env req) env).

(** [adaptResponse(completion)] on whatever the SDK resolved with: a stream
    object has no [choices], so [response.choices.map] throws. *)
Definition adaptResponse_of (completion : GroqSdk.CreateResult)
  : M ChatCompletionResponse :=
  match completion with
  | GroqSdk.Completion c => ret (adaptResponse c)
  | GroqSdk.Stream _ => property_of "map" None
  end.

(** [for await (const chunk of stream as any)] on whatever the SDK resolved
    with: a completion object is not async iterable. *)
Definition for_await_of (stream : GroqSdk.CreateResult)
           (body : GroqSdk.ChatCompletionChunk -> M unit) : M unit :=
  match stream with
  | GroqSdk.Stream s => for_await s body
  | GroqSdk.Completion _ => throw_new (PlainError "stream is not async iterable")
  end.

Definition chatCompletion (request : ChatCompletionRequest)
           (options : option RequestOptions) : M ChatCompletionResponse :=
  try_catch
    (when (truthy (stream request))
       (throw_new (AISuiteError
          "Streaming is not supported in non-streaming method. Set stream: false or use streamChatCompletion method."
          name
          "STREAMING_NOT_SUPPORTED")) ;;
     let groqRequest := adaptRequest request in
     completion <- client_create groqRequest ;;
     adaptResponse_of completion)
    (fun error =>
       if instanceof_AISuiteError error then throw error
       else
         throw_new (AISuiteError
           ("Groq API error: " ++ message_or_unknown error)
           name
           "API_ERROR")).

Definition streamChatCompletion (request : ChatCompletionRequest)
           (options : option RequestOptions) : M unit :=
  try_catch
    (let groqRequest := adaptRequest request in
     stream <- client_create groqRequest ;;
     streamId <- generateId ;;
     listen_abort options ;;
     for_await_of stream (fun chunk =>
       c <- adaptStreamResponse chunk streamId ;;
       yield c))
    (fun error =>
       throw_new (AISuiteError
         ("Groq streaming error: " ++ message_or_unknown error)
         name
         "STREAMING_ERROR")).

End Groq.

(* ===================================================================== *)
(** ** The provider interface (core/base-provider) and its instances *)
(* ===================================================================== *)

Record Provider := mkProvider {
  provider_name : string;
  provider_chatCompletion :
    ChatCompletionRequest -> option RequestOptions -> M ChatCompletionResponse;
  provider_streamChatCompletion :
    ChatCompletionRequest -> option RequestOptions -> M unit
}.

Definition MistralProvider : Provider :=
  {| provider_name := Mistral.name;
     provider_chatCompletion := Mistral.chatCompletion;
     provider_streamChatCompletion := Mistral.streamChatCompletion |}.

Definition GroqProvider : Provider :=
  {| provider_name := Groq.name;
     provider_chatCompletion := Groq.chatCompletion;
     provider_streamChatCompletion := Groq.streamChatCompletion |}.

(** The vendors whose provider sources are at hand. *)
Inductive Vendor := VMistral | VGroq.

Definition provider_of (v : Vendor) : Provider :=
  match v with
  | VMistral => MistralProvider
  | VGroq => GroqProvider
  end.

(** The vendor's name as it is spelled in the error messages. *)
Definition vendor_label (v : Vendor) : string :=
  match v with
  | VMistral => "Mistral"
  | VGroq => "Groq"
  end.

(** How the vendor's SDK settles the non-streaming call for [request]. *)
Definition completion_call (env : Env) (v : Vendor) (request : ChatCompletionRequest)
  : Settled unit :=
  match v with
  | VMistral =>
      match mistral_chat env (Mistral.adaptRequest request) with
      | Resolved _ => Resolved tt
      | Rejected e => Rejected e
      end
  | VGroq =>
      match groq_create env (Groq.adaptRequest request) with
      | Resolved _ => Resolved tt
      | Rejected e => Rejected e
      end
  end.

(** How the vendor's SDK settles the streaming call for [request]. *)
Definition stream_call (env : Env) (v : Vendor) (request : ChatCompletionRequest)
  : Settled unit :=
  match v with
  | VMistral =>
      match mistral_chatStream env (Mistral.adaptRequest request) with
      | Resolved _ => Resolved tt
      | Rejected e => Rejected e
      end
  | VGroq =>
      match groq_create env (Groq.adaptRequest request) with
      | Resolved _ => Resolved tt
      | Rejected e => Rejected e
      end
  end.

(** The event that records the vendor's SDK being called. *)
Definition is_sdk_call (ev : Event) : bool :=
  match ev with
  | MistralChat _ | MistralChatStream _ | GroqCreate _ => true
  | _ => false
  end.

Definition sdk_calls (t : list Event) : list Event := filter is_sdk_call t.

(** The chunks a drained generator has yielded, in order. *)
Fixpoint yielded (t : list Event) : list ChatCompletionChunk :=
  match t with
  | [] => []
  | Yield c :: t' => c :: yielded t'
  | _ :: t' => yielded t'
  end.

(** The ids handed out by [generateId], in order. *)
Fixpoint generated_ids (t : list Event) : list string :=
  match t with
  | [] => []
  | GenerateId i :: t' => i :: generated_ids t'
  | _ :: t' => generated_ids t'
  end.

(** [chunk.choices[0].delta], when the chunk has a choice. *)
Definition first_delta (c : ChatCompletionChunk) : option Delta :=
  option_map delta (hd_error (chunk_choices c)).

(* ===================================================================== *)
(** ** Client dispatch *)
(* ===================================================================== *)

Module Client.

(** Modelled from the spec: src/client.ts and its model parser are absent.
    The model string is split on the first separator only; everything after
    it is the vendor model id, verbatim. *)
Fixpoint split_first (sep : ascii) (s : string) : option (string * string) :=
  match s with
  | EmptyString => None
  | String c s' =>
      if Ascii.eqb c sep then Some (EmptyString, s')
      else match split_first sep s' with
           | Some (before, rest) => Some (String c before, rest)
           | None => None
           end
  end.

(** Modelled from the spec: the separator between vendor key and vendor
    model id is the colon. *)
Definition parseModel (m : string) : option (string * string) :=
  split_first ":"%char m.

(** Modelled from the spec: the registry maps vendor keys to configured
    providers and keeps the order of configuration. *)
Record t := mkClient {
  providers : list (string * Provider)
}.

Fixpoint lookup (key : string) (reg : list (string * Provider)) : option Provider :=
  match reg with
  | [] => None
  | (k, p) :: reg' => if String.eqb k key then Some p else lookup key reg'
  end.

Definition listProviders (client : t) : list string :=
  map fst (providers client).

Definition isProviderConfigured (client : t) (key : string) : bool :=
  match lookup key (providers client) with
  | Some _ => true
  | None => false
  end.

(** [{ ...request, model }] *)
Definition with_model (request : ChatCompletionRequest) (m : string)
  : ChatCompletionRequest :=
  {| model := m;
     messages := messages request;
     temperature := temperature request;
     max_tokens := max_tokens request;
     top_p := top_p request;
     frequency_penalty := frequency_penalty request;
     presence_penalty := presence_penalty request;
     stop := stop request;
     user_id := user_id request;
     stream := stream request;
     tools := tools request;
     tool_choice := tool_choice request |}.

(** What [chat.completions.create] hands back: a single response, or the
    provider's chunk sequence, not yet consumed. *)
Inductive CreateResult :=
| Response (r : ChatCompletionResponse)
| ChunkSequence (s : M unit).

(** Modelled from the spec: [chat.completions.create(request, options?)]
    splits the model, looks the vendor key up, fails with
    ProviderNotConfigured naming the vendor when it is absent, rewrites the
    model field and forwards to the provider, to its streaming call when
    [request.stream] is true.  The spec gives the call no behaviour on a model
    without separator (its data model excludes it): there the result is
    [None]. *)
Definition create (client : t) (request : ChatCompletionRequest)
           (options : option RequestOptions) : option (M CreateResult) :=
  match parseModel (model request) with
  | None => None
  | Some (vendorKey, vendorModelId) =>
      Some
        match lookup vendorKey (providers client) with
        | None => throw_new (ProviderNotConfiguredError vendorKey)
        | Some p =>
            let forwarded := with_model request vendorModelId in
            if truthy (stream request)
            then ret (ChunkSequence (provider_streamChatCompletion p forwarded options))
            else r <- provider_chatCompletion p forwarded options ;; ret (Response r)
        end
  end.

End Client.

(* ===================================================================== *)
(** ** Sample inputs *)
(* ===================================================================== *)

Definition hello : ChatMessage :=
  {| role := user; content := Some "Hello"; name := None;
     tool_calls := None; tool_call_id := None |}.

Definition sample_request (m : string) (s : option bool) : ChatCompletionRequest :=
  {| model := m; messages := [hello];
     temperature := None; max_tokens := None; top_p := None;
     frequency_penalty := None; presence_penalty := None; stop := None;
     user_id := None; stream := s; tools := None; tool_choice := None |}.

Definition sample_clock (n : nat) : Z := (1234567890000 + Z.of_nat n)%Z.

Definition sample_ids (n : nat) : string :=
  match n with
  | O => "chatcmpl-k3j9x0q2m"
  | _ => "chatcmpl-7f1c5d8ab"
  end.

(** An environment whose SDK calls all reject with [e]. *)
Definition rejecting_env (e : Thrown) : Env :=
  {| date_now := sample_clock;
     id_source := sample_ids;
     mistral_chat := fun _ => Rejected e;
     mistral_chatStream := fun _ => Rejected e;
     groq_create := fun _ => Rejected e |}.

Definition initial_world : World :=
  {| trace := []; next_addr := 100; clock_reads := 0; ids_generated := 0 |}.

Definition custom_error : Thrown :=
  ThrownObject 7 (AISuiteError "Custom error" "mistral" "CUSTOM_ERROR").

Definition rate_limit_error : Thrown :=
  ThrownObject 8 (PlainError "API rate limit exceeded").

(** The text of the STREAMING_NOT_SUPPORTED error of both providers. *)
Definition not_supported_message : string :=
  "Streaming is not supported in non-streaming method. Set stream: false or use streamChatCompletion method.".

(* ===================================================================== *)
(** ** Properties of the error paths *)
(* ===================================================================== *)

(** Both operations of every provider hand a canonical error of the vendor
    call back as the very object that was thrown. *)
Definition canonical_errors_rethrown_by_both_operations : Prop :=
  forall (v : Vendor) (request : ChatCompletionRequest)
         (options : option RequestOptions) (env : Env) (w : World) (e : Thrown),
    instanceof_AISuiteError e = true ->
    (truthy (stream request) = false ->
     completion_call env v request = Rejected e ->
     fst (provider_chatCompletion (provider_of v) request options env w) = Throw e)
    /\
    (stream_call env v request = Rejected e ->
     fst (provider_streamChatCompletion (provider_of v) request options env w) = Throw e).

(* ===================================================================== *)
(** ** Observations on streaming runs *)
(* ===================================================================== *)

(** The event that records the streaming call of the vendor's SDK. *)
Definition stream_call_event (v : Vendor) (request : ChatCompletionRequest) : Event :=
  match v with
  | VMistral => MistralChatStream (Mistral.adaptRequest request)
  | VGroq => GroqCreate (Groq.adaptRequest request)
  end.

(** [chunk.choices[0].delta.content] of a canonical chunk: absent when the
    chunk has no choice, possibly [undefined] when it has one. *)
Definition chunk_content (c : ChatCompletionChunk) : option (option string) :=
  option_map delta_content (first_delta c).

(** The same reading of a native Mistral event. *)
Definition mistral_event_content (ev : MistralSdk.ChatCompletionResponseChunk)
  : option (option string) :=
  option_map (fun ch => delta_content (MistralSdk.delta ch))
             (hd_error (MistralSdk.chunk_choices ev)).

(** The same reading of a native Groq event. *)
Definition groq_event_content (ev : GroqSdk.ChatCompletionChunk)
  : option (option string) :=
  option_map (fun ch => delta_content (GroqSdk.delta ch))
             (hd_error (GroqSdk.chunk_choices ev)).

(** The text a content reading contributes to the assistant message. *)
Definition content_text (o : option (option string)) : string :=
  match o with
  | Some (Some s) => s
  | _ => EmptyString
  end.

(** The text of [chunk.choices[0].delta.content]. *)
Definition chunk_text (c : ChatCompletionChunk) : string :=
  content_text (chunk_content c).

Definition mistral_event_text (ev : MistralSdk.ChatCompletionResponseChunk) : string :=
  content_text (mistral_event_content ev).

Definition groq_event_text (ev : GroqSdk.ChatCompletionChunk) : string :=
  content_text (groq_event_content ev).

(** A native Mistral event with its own id replaced. *)
Definition mistral_with_id (i : string) (ev : MistralSdk.ChatCompletionResponseChunk)
  : MistralSdk.ChatCompletionResponseChunk :=
  {| MistralSdk.chunk_id := i;
     MistralSdk.chunk_object := MistralSdk.chunk_object ev;
     MistralSdk.chunk_created := MistralSdk.chunk_created ev;
     MistralSdk.chunk_model := MistralSdk.chunk_model ev;
     MistralSdk.chunk_choices := MistralSdk.chunk_choices ev |}.

(** A native Groq event with its own id replaced. *)
Definition groq_with_id (i : string) (ev : GroqSdk.ChatCompletionChunk)
  : GroqSdk.ChatCompletionChunk :=
  {| GroqSdk.chunk_id := i;
     GroqSdk.chunk_object := GroqSdk.chunk_object ev;
     GroqSdk.chunk_created := GroqSdk.chunk_created ev;
     GroqSdk.chunk_model := GroqSdk.chunk_model ev;
     GroqSdk.chunk_choices := GroqSdk.chunk_choices ev |}.

(** A loop body that, run on [ev] in any world, yields exactly one chunk
    related to [ev] by [P] and returns. *)
Definition yields_one {E} (env : Env) (body : E -> M unit)
           (P : E -> ChatCompletionChunk -> Prop) (ev : E) : Prop :=
  forall w, exists c w',
    body ev env w = (Return tt, w')
    /\ trace w' = trace w ++ [Yield c]
    /\ P ev c.

(** A loop body that, run on [ev] in any world, either yields exactly one
    chunk satisfying [Q] and returns, or throws without a trace. *)
Definition yields_or_throws {E} (env : Env) (body : E -> M unit)
           (Q : ChatCompletionChunk -> Prop) (ev : E) : Prop :=
  forall w,
    (exists c w',
        body ev env w = (Return tt, w')
        /\ trace w' = trace w ++ [Yield c]
        /\ Q c)
    \/
    (exists e w',
        body ev env w = (Throw e, w')
        /\ trace w' = trace w).

(** The trace left by [listen_abort]. *)
Definition listener_events (options : option RequestOptions) : list Event :=
  match signal_of options with
  | Some sg => [AddAbortListener sg]
  | None => []
  end.

(** The output chunk [c] carries the id of its stream. *)
Definition has_stream_id (streamId : string) (c : ChatCompletionChunk) : Prop :=
  chunk_id c = streamId.

(** A native Mistral event has a choice to read the delta from. *)
Definition mistral_has_delta (ev : MistralSdk.ChatCompletionResponseChunk) : Prop :=
  MistralSdk.chunk_choices ev <> [].

(** The output chunk [c] is the image of the native Mistral event [ev]: it
    has the stream's id, one choice, and the content of the event's delta. *)
Definition mistral_adapted (streamId : string)
           (ev : MistralSdk.ChatCompletionResponseChunk)
           (c : ChatCompletionChunk) : Prop :=
  chunk_id c = streamId
  /\ length (chunk_choices c) = 1%nat
  /\ chunk_content c = mistral_event_content ev.

(** The output chunk [c] is the image of the native Groq event [ev]: it has
    the stream's id and the deltas of the event, choice by choice. *)
Definition groq_adapted (streamId : string)
           (ev : GroqSdk.ChatCompletionChunk)
           (c : ChatCompletionChunk) : Prop :=
  chunk_id c = streamId
  /\ map delta (chunk_choices c) = map GroqSdk.delta (GroqSdk.chunk_choices ev)
  /\ chunk_content c = groq_event_content ev.

(** The loop bodies of the two streaming calls. *)
Definition mistral_body (streamId : string)
           (chunk : MistralSdk.ChatCompletionResponseChunk) : M unit :=
  (c <- Mistral.adaptStreamResponse chunk streamId ;; yield c)%js.

Definition groq_body (streamId : string) (chunk : GroqSdk.ChatCompletionChunk) : M unit :=
  (c <- Groq.adaptStreamResponse chunk streamId ;; yield c)%js.

(* ===================================================================== *)
(** ** Sample vendor answers *)
(* ===================================================================== *)

Definition sample_mistral_events : list MistralSdk.ChatCompletionResponseChunk :=
  [ {| MistralSdk.chunk_id := "chatcmpl-123";
       MistralSdk.chunk_object := "chat.completion.chunk";
       MistralSdk.chunk_created := 1234567890;
       MistralSdk.chunk_model := "mistral-large";
       MistralSdk.chunk_choices :=
         [ {| MistralSdk.chunk_index := 0;
              MistralSdk.delta :=
                {| delta_role := Some assistant; delta_content := Some "Hello";
                   delta_tool_calls := None |};
              MistralSdk.chunk_finish_reason := None |} ] |};
    {| MistralSdk.chunk_id := "chatcmpl-124";
       MistralSdk.chunk_object := "chat.completion.chunk";
       MistralSdk.chunk_created := 1234567890;
       MistralSdk.chunk_model := "mistral-large";
       MistralSdk.chunk_choices :=
         [ {| MistralSdk.chunk_index := 0;
              MistralSdk.delta :=
                {| delta_role := None; delta_content := Some "! How can I help?";
                   delta_tool_calls := None |};
              MistralSdk.chunk_finish_reason := Some "stop" |} ] |} ].

Definition sample_groq_events : list GroqSdk.ChatCompletionChunk :=
  [ {| GroqSdk.chunk_id := "chatcmpl-123";
       GroqSdk.chunk_object := "chat.completion.chunk";
       GroqSdk.chunk_created := 1234567890;
       GroqSdk.chunk_model := "llama3-8b-8192";
       GroqSdk.chunk_choices :=
         [ {| GroqSdk.chunk_index := 0;
              GroqSdk.delta :=
                {| delta_role := Some assistant; delta_content := Some "Hello";
                   delta_tool_calls := None |};
              GroqSdk.chunk_finish_reason := None |} ] |};
    {| GroqSdk.chunk_id := "chatcmpl-124";
       GroqSdk.chunk_object := "chat.completion.chunk";
       GroqSdk.chunk_created := 1234567890;
       GroqSdk.chunk_model := "llama3-8b-8192";
       GroqSdk.chunk_choices :=
         [ {| GroqSdk.chunk_index := 0;
              GroqSdk.delta :=
                {| delta_role := None; delta_content := Some "! How can I help?";
                   delta_tool_calls := None |};
              GroqSdk.chunk_finish_reason := Some "stop" |} ] |} ].

Definition sample_usage : Usage :=
  {| prompt_tokens := 10; completion_tokens := 20; total_tokens := 30 |}.

(** A native Mistral response with two choices, the first one carrying tool
    calls, and with the usage given. *)
Definition sample_mistral_response (u : option Usage) : MistralSdk.ChatCompletionResponse :=
  {| MistralSdk.id := "chatcmpl-123";
     MistralSdk.object := "chat.completion";
     MistralSdk.created := 1234567890;
     MistralSdk.response_model := "mistral-large";
     MistralSdk.choices :=
       [ {| MistralSdk.index := 0;
            MistralSdk.message :=
              {| MistralSdk.role := assistant;
                 MistralSdk.content := Some "Hello! How can I help you?";
                 MistralSdk.tool_calls := Some ["call-1"] |};
            MistralSdk.finish_reason := Some "stop" |};
         {| MistralSdk.index := 1;
            MistralSdk.message :=
              {| MistralSdk.role := assistant;
                 MistralSdk.content := Some "Hi there.";
                 MistralSdk.tool_calls := None |};
            MistralSdk.finish_reason := Some "length" |} ];
     MistralSdk.usage := u |}.

Definition sample_groq_completion (u : option Usage) : GroqSdk.ChatCompletion :=
  {| GroqSdk.id := "chatcmpl-123";
     GroqSdk.object := "chat.completion";
     GroqSdk.created := 1234567890;
     GroqSdk.response_model := "llama3-8b-8192";
     GroqSdk.choices :=
       [ {| GroqSdk.index := 0;
            GroqSdk.message :=
              {| role := assistant; content := Some "Hello! How can I help you?";
                 name := None; tool_calls := None; tool_call_id := None |};
            GroqSdk.finish_reason := Some "stop" |} ];
     GroqSdk.usage := u |}.

(** An environment whose SDK calls resolve with the sample answers. *)
Definition resolving_env (u : option Usage) : Env :=
  {| date_now := sample_clock;
     id_source := sample_ids;
     mistral_chat := fun _ => Resolved (sample_mistral_response u);
     mistral_chatStream := fun _ => Resolved (mkStream sample_mistral_events None);
     groq_create := fun req =>
       if truthy (GroqSdk.stream req)
       then Resolved (GroqSdk.Stream (mkStream sample_groq_events None))
       else Resolved (GroqSdk.Completion (sample_groq_completion u)) |}.

(* ===================================================================== *)
(** ** Observations on adapted responses *)
(* ===================================================================== *)

(** The one choice Mistral's [adaptResponse] builds from a native choice:
    index 0, an assistant message that has the native content and nothing
    else, and the native finish reason. *)
Definition assistant_reply (first : MistralSdk.ResponseChoice) : Choice :=
  {| index := 0;
     message :=
       {| role := assistant;
          content := MistralSdk.content (MistralSdk.message first);
          name := None;
          tool_calls := None;
          tool_call_id := None |};
     finish_reason := MistralSdk.finish_reason first |}.

(** A native Mistral response inhabits the type the SDK declares for it:
    the [usage] field is there. *)
Definition mistral_well_typed (response : MistralSdk.ChatCompletionResponse) : Prop :=
  MistralSdk.usage response <> None.

(** Every vendor's [adaptResponse] answers a native response without usage
    with the zero-valued usage record, and does not fail. *)
Definition every_adaptResponse_defaults_usage : Prop :=
  (forall response : GroqSdk.ChatCompletion,
      GroqSdk.usage response = None ->
      usage (Groq.adaptResponse response) = zero_usage)
  /\
  (forall (response : MistralSdk.ChatCompletionResponse) (env : Env) (w : World),
      MistralSdk.usage response = None ->
      exists r w',
        Mistral.adaptResponse response env w = (Return r, w')
        /\ usage r = zero_usage).

(* ===================================================================== *)
(** ** Test doubles for dispatch *)
(* ===================================================================== *)

(** A provider double: its non-streaming call answers with a response that
    echoes the model id it was given. *)
Definition echo_response (m : string) : ChatCompletionResponse :=
  {| id := "test-id"; object := "chat.completion"; created := 1234567890;
     response_model := m; choices := []; usage := sample_usage |}.

Definition echo_provider (n : string) : Provider :=
  {| provider_name := n;
     provider_chatCompletion := fun request _ => ret (echo_response (model request));
     provider_streamChatCompletion := fun _ _ => ret tt |}.

Definition sample_client : Client.t :=
  Client.mkClient [("openai", echo_provider "openai"); ("groq", GroqProvider)].

(* ===================================================================== *)
(** ** Further observations on adapters and runs *)
(* ===================================================================== *)

Module JsIndex.

(** [s.indexOf(pat)], with [None] for -1. *)
Fixpoint indexOf (pat s : string) : option nat :=
  if Js.startsWith pat s then Some O
  else match s with
       | EmptyString => None
       | String _ s' => option_map S (indexOf pat s')
       end.

(** [s.slice(0, n)] *)
Fixpoint take (n : nat) (s : string) : string :=
  match n, s with
  | O, _ => EmptyString
  | S n', String c s' => String c (take n' s')
  | S _, EmptyString => EmptyString
  end.

End JsIndex.

(** The event that records the non-streaming call of the vendor's SDK. *)
Definition completion_call_event (v : Vendor) (request : ChatCompletionRequest) : Event :=
  match v with
  | VMistral => MistralChat (Mistral.adaptRequest request)
  | VGroq => GroqCreate (Groq.adaptRequest request)
  end.

(** The abort listeners registered along a trace, in order. *)
Fixpoint listeners (t : list Event) : list nat :=
  match t with
  | [] => []
  | AddAbortListener sg :: t' => sg :: listeners t'
  | _ :: t' => listeners t'
  end.

(** Two messages that Mistral's [adaptMessage] cannot tell apart. *)
Definition same_for_mistral (m1 m2 : ChatMessage) : Prop :=
  role m1 = role m2 /\ content m1 = content m2 /\ tool_calls m1 = tool_calls m2.

(** The chunk Groq's adapter builds from [chunk] when the clock reads [now]. *)
Definition groq_chunk (now : Z) (streamId : string) (chunk : GroqSdk.ChatCompletionChunk)
  : ChatCompletionChunk :=
  {| chunk_id := streamId;
     chunk_object := "chat.completion.chunk";
     chunk_created := now;
     chunk_model := "groq:" ++ GroqSdk.chunk_model chunk;
     chunk_choices :=
       map (fun choice =>
              {| chunk_index := GroqSdk.chunk_index choice;
                 delta := GroqSdk.delta choice;
                 chunk_finish_reason := GroqSdk.chunk_finish_reason choice |})
           (GroqSdk.chunk_choices chunk) |}.

(** The chunks of a Groq run over [evs] whose first clock reading is the
    [n]-th one: one chunk per event, one clock reading per chunk. *)
Fixpoint groq_chunks (env : Env) (streamId : string) (n : nat)
         (evs : list GroqSdk.ChatCompletionChunk) : list ChatCompletionChunk :=
  match evs with
  | [] => []
  | ev :: rest =>
      groq_chunk (date_now env n) streamId ev :: groq_chunks env streamId (S n) rest
  end.

(** The chunk Mistral's adapter builds from the first choice of [response]
    when the clock reads [now]. *)
Definition mistral_chunk (now : Z) (streamId : string)
           (response : MistralSdk.ChatCompletionResponseChunk)
           (first : MistralSdk.ChunkChoice) : ChatCompletionChunk :=
  {| chunk_id := streamId;
     chunk_object := "chat.completion.chunk";
     chunk_created := (now / 1000)%Z;
     chunk_model := MistralSdk.chunk_model response;
     chunk_choices :=
       [ {| chunk_index := 0;
            delta :=
              {| delta_role := Some assistant;
                 delta_content := delta_content (MistralSdk.delta first);
                 delta_tool_calls := delta_tool_calls (MistralSdk.delta first) |};
            chunk_finish_reason := MistralSdk.chunk_finish_reason first |} ] |}.

(** The chunks of a Mistral run over [evs]: one per event, up to the first
    event that has no choice. *)
Fixpoint mistral_chunks (env : Env) (streamId : string) (n : nat)
         (evs : list MistralSdk.ChatCompletionResponseChunk) : list ChatCompletionChunk :=
  match evs with
  | [] => []
  | ev :: rest =>
      match hd_error (MistralSdk.chunk_choices ev) with
      | None => []
      | Some first =>
          mistral_chunk (date_now env n) streamId ev first
          :: mistral_chunks env streamId (S n) rest
      end
  end.

(** A chunk with exactly one choice, of index 0 and role assistant. *)
Definition single_assistant_choice (c : ChatCompletionChunk) : Prop :=
  exists d fr,
    chunk_choices c = [ {| chunk_index := 0; delta := d; chunk_finish_reason := fr |} ]
    /\ delta_role d = Some assistant.

(** The STREAMING_ERROR object that wraps the failure [e] for vendor [v]. *)
Definition streaming_error (v : Vendor) (e : Thrown) : ErrorObject :=
  AISuiteError (vendor_label v ++ " streaming error: " ++ message_or_unknown e)
               (provider_name (provider_of v)) "STREAMING_ERROR".

(** How a loop over a native stream ends when no iteration throws. *)
Definition stream_end (fin : option Thrown) : Outcome unit :=
  match fin with
  | None => Return tt
  | Some e => Throw e
  end.

(** An environment whose native streams deliver the sample events and then
    fail with [e]. *)
Definition failing_stream_env (e : Thrown) : Env :=
  {| date_now := sample_clock;
     id_source := sample_ids;
     mistral_chat := fun _ => Rejected e;
     mistral_chatStream := fun _ => Resolved (mkStream sample_mistral_events (Some e));
     groq_create := fun _ =>
       Resolved (GroqSdk.Stream (mkStream sample_groq_events (Some e))) |}.

(** A native Mistral event without choices. *)
Definition choiceless_event : MistralSdk.ChatCompletionResponseChunk :=
  {| MistralSdk.chunk_id := "chatcmpl-125";
     MistralSdk.chunk_object := "chat.completion.chunk";
     MistralSdk.chunk_created := 1234567890;
     MistralSdk.chunk_model := "mistral-large";
     MistralSdk.chunk_choices := [] |}.

(** An environment whose Mistral stream delivers the first sample event, an
    event without choices, and then the second sample event. *)
Definition broken_stream_env : Env :=
  {| date_now := sample_clock;
     id_source := sample_ids;
     mistral_chat := fun _ => Rejected rate_limit_error;
     mistral_chatStream := fun _ =>
       Resolved (mkStream (firstn 1 sample_mistral_events
                           ++ choiceless_event :: skipn 1 sample_mistral_events) None);
     groq_create := fun _ => Rejected rate_limit_error |}.

(** A Groq output choice keeps the index, the delta and the finish reason
    of the native choice. *)
Definition groq_choice_kept (native : GroqSdk.ChunkChoice) (ch : ChunkChoice) : Prop :=
  chunk_index ch = GroqSdk.chunk_index native
  /\ delta ch = GroqSdk.delta native
  /\ chunk_finish_reason ch = GroqSdk.chunk_finish_reason native.

(** A Groq output chunk carries the prefixed model of the native event and
    keeps its choices, one for one. *)
Definition groq_event_kept (ev : GroqSdk.ChatCompletionChunk) (c : ChatCompletionChunk)
  : Prop :=
  chunk_model c = ("groq:" ++ GroqSdk.chunk_model ev)%string
  /\ Forall2 groq_choice_kept (GroqSdk.chunk_choices ev) (chunk_choices c).

(** A Mistral output chunk carries the model of the native event as it is
    and, in its one choice, the content, tool calls and finish reason of the
    event's first choice [first]. *)
Definition mistral_first_choice_kept (ev : MistralSdk.ChatCompletionResponseChunk)
           (c : ChatCompletionChunk) : Prop :=
  exists first,
    hd_error (MistralSdk.chunk_choices ev) = Some first
    /\ chunk_model c = MistralSdk.chunk_model ev
    /\ chunk_choices c =
         [ {| chunk_index := 0;
              delta := {| delta_role := Some assistant;
                          delta_content := delta_content (MistralSdk.delta first);
                          delta_tool_calls := delta_tool_calls (MistralSdk.delta first) |};
              chunk_finish_reason := MistralSdk.chunk_finish_reason first |} ].

(** For both flat-stream vendors and every native stream, the adapter turns
    each event into one chunk with the event's content, and the chunks of a
    run mirror the events of the stream, one for one and in order, their
    contents concatenating to the events' contents. *)
Definition flat_streams_mirror_every_event : Prop :=
  (forall chunk streamId env w,
      exists c w',
        Groq.adaptStreamResponse chunk streamId env w = (Return c, w')
        /\ chunk_content c = groq_event_content chunk)
  /\
  (forall response streamId env w,
      exists c w',
        Mistral.adaptStreamResponse response streamId env w = (Return c, w')
        /\ chunk_content c = mistral_event_content response)
  /\
  (forall request options env w s,
      mistral_chatStream env (Mistral.adaptRequest request) = Resolved s ->
      exists out,
        yielded (trace (snd (Mistral.streamChatCompletion request options env w))) =
          yielded (trace w) ++ out
        /\ Forall2 (fun ev c => chunk_content c = mistral_event_content ev) (events s) out
        /\ Js.join (map chunk_text out) = Js.join (map mistral_event_text (events s)))
  /\
  (forall request options env w s,
      groq_create env (Groq.adaptRequest request) = Resolved (GroqSdk.Stream s) ->
      exists out,
        yielded (trace (snd (Groq.streamChatCompletion request options env w))) =
          yielded (trace w) ++ out
        /\ Forall2 (fun ev c => chunk_content c = groq_event_content ev) (events s) out
        /\ Js.join (map chunk_text out) = Js.join (map groq_event_text (events s))).

(** The failure a vendor's native stream ends with, when the streaming call
    for [request] resolves with a stream that fails. *)
Definition stream_ending (env : Env) (v : Vendor) (request : ChatCompletionRequest)
  : option Thrown :=
  match v with
  | VMistral =>
      match mistral_chatStream env (Mistral.adaptRequest request) with
      | Resolved s => ending s
      | Rejected _ => None
      end
  | VGroq =>
      match groq_create env (Groq.adaptRequest request) with
      | Resolved (GroqSdk.Stream s) => ending s
      | _ => None
      end
  end.

(* ===================================================================== *)
(** ** Non-streaming call: error handling *)
(* ===================================================================== *)

(** C1: for every provider, [chatCompletion] on a request whose [stream]
    field is true rejects with a canonical error of kind
    STREAMING_NOT_SUPPORTED, and the run records no call of the vendor SDK:
    the trace is left as it was. *)
Theorem chatCompletion_stream_true_rejected
        (v : Vendor) (request : ChatCompletionRequest)
        (options : option RequestOptions) (env : Env) (w : World) :
  stream request = Some true ->
  exists w',
    provider_chatCompletion (provider_of v) request options env w =
      (Throw (ThrownObject (next_addr w)
                (AISuiteError not_supported_message
                              (provider_name (provider_of v))
                              "STREAMING_NOT_SUPPORTED")), w')
    /\ trace w' = trace w
    /\ sdk_calls (trace w') = sdk_calls (trace w).
Proof.
  intros Hs.
  destruct v; cbn [provider_of provider_chatCompletion MistralProvider GroqProvider];
    unfold Mistral.chatCompletion, Groq.chatCompletion, try_catch, bind, when;
    rewrite Hs; cbn; eexists; repeat split; reflexivity.
Qed.

Lemma chatCompletion_stream_true_rejected_witness :
  exists w',
    Mistral.chatCompletion (sample_request "mistral-large" (Some true)) None
      (rejecting_env rate_limit_error) initial_world =
      (Throw (ThrownObject 100
                (AISuiteError not_supported_message "mistral"
                              "STREAMING_NOT_SUPPORTED")), w')
    /\ trace w' = []
    /\ sdk_calls (trace w') = [].
Proof.
  exact (chatCompletion_stream_true_rejected VMistral
           (sample_request "mistral-large" (Some true)) None
           (rejecting_env rate_limit_error) initial_world eq_refl).
Defined.

Lemma completion_call_mistral (env : Env) (request : ChatCompletionRequest) (e : Thrown) :
  completion_call env VMistral request = Rejected e ->
  mistral_chat env (Mistral.adaptRequest request) = Rejected e.
Proof.
  unfold completion_call.
  destruct (mistral_chat env (Mistral.adaptRequest request)); congruence.
Qed.

Lemma completion_call_groq (env : Env) (request : ChatCompletionRequest) (e : Thrown) :
  completion_call env VGroq request = Rejected e ->
  groq_create env (Groq.adaptRequest request) = Rejected e.
Proof.
  unfold completion_call.
  destruct (groq_create env (Groq.adaptRequest request)); congruence.
Qed.

Lemma stream_call_mistral (env : Env) (request : ChatCompletionRequest) (e : Thrown) :
  stream_call env VMistral request = Rejected e ->
  mistral_chatStream env (Mistral.adaptRequest request) = Rejected e.
Proof.
  unfold stream_call.
  destruct (mistral_chatStream env (Mistral.adaptRequest request)); congruence.
Qed.

Lemma stream_call_groq (env : Env) (request : ChatCompletionRequest) (e : Thrown) :
  stream_call env VGroq request = Rejected e ->
  groq_create env (Groq.adaptRequest request) = Rejected e.
Proof.
  unfold stream_call.
  destruct (groq_create env (Groq.adaptRequest request)); congruence.
Qed.

(** What the catch block of [chatCompletion] does with a failure [e] of the
    vendor call: a canonical error goes through, anything else is wrapped. *)
Lemma chatCompletion_vendor_failure
      (v : Vendor) (request : ChatCompletionRequest)
      (options : option RequestOptions) (env : Env) (w : World) (e : Thrown) :
  truthy (stream request) = false ->
  completion_call env v request = Rejected e ->
  fst (provider_chatCompletion (provider_of v) request options env w) =
    if instanceof_AISuiteError e then Throw e
    else Throw (ThrownObject (next_addr w)
                  (AISuiteError (vendor_label v ++ " API error: " ++ message_or_unknown e)
                                (provider_name (provider_of v)) "API_ERROR")).
Proof.
  intros Hs Hcall.
  destruct v.
  - apply completion_call_mistral in Hcall.
    cbn [provider_of provider_chatCompletion MistralProvider].
    unfold Mistral.chatCompletion, try_catch, bind, when, Mistral.client_chat, bind, emit.
    rewrite Hs. cbn. rewrite Hcall. cbn.
    destruct (instanceof_AISuiteError e); reflexivity.
  - apply completion_call_groq in Hcall.
    cbn [provider_of provider_chatCompletion GroqProvider].
    unfold Groq.chatCompletion, try_catch, bind, when, Groq.client_create, bind, emit.
    rewrite Hs. cbn. rewrite Hcall. cbn.
    destruct (instanceof_AISuiteError e); reflexivity.
Qed.

(** C6: for every provider, when the vendor call inside [chatCompletion]
    rejects with a plain [Error], [chatCompletion] rejects with a canonical
    error of kind API_ERROR whose message is the vendor's label, the text
    " API error: " and the original message; when the rejection value is not
    an [Error] (a bare string), the message ends in "Unknown error". *)
Theorem chatCompletion_wraps_plain_failure
        (v : Vendor) (request : ChatCompletionRequest)
        (options : option RequestOptions) (env : Env) (w : World) :
  truthy (stream request) = false ->
  (forall addr msg,
      completion_call env v request = Rejected (ThrownObject addr (PlainError msg)) ->
      fst (provider_chatCompletion (provider_of v) request options env w) =
        Throw (ThrownObject (next_addr w)
                 (AISuiteError (vendor_label v ++ " API error: " ++ msg)
                               (provider_name (provider_of v)) "API_ERROR")))
  /\
  (forall s,
      completion_call env v request = Rejected (ThrownValue s) ->
      fst (provider_chatCompletion (provider_of v) request options env w) =
        Throw (ThrownObject (next_addr w)
                 (AISuiteError (vendor_label v ++ " API error: " ++ "Unknown error")
                               (provider_name (provider_of v)) "API_ERROR"))).
Proof.
  intros Hs; split; intros; 
    rewrite (chatCompletion_vendor_failure v request options env w _ Hs H);
    reflexivity.
Qed.

Lemma chatCompletion_wraps_plain_failure_witness :
  fst (Mistral.chatCompletion (sample_request "mistral-large" None) None
         (rejecting_env rate_limit_error) initial_world) =
    Throw (ThrownObject 100
             (AISuiteError "Mistral API error: API rate limit exceeded"
                           "mistral" "API_ERROR"))
  /\
  fst (Groq.chatCompletion (sample_request "llama3-8b-8192" None) None
         (rejecting_env (ThrownValue "Unknown error string")) initial_world) =
    Throw (ThrownObject 100
             (AISuiteError "Groq API error: Unknown error" "groq" "API_ERROR")).
Proof.
  split.
  - exact (proj1 (chatCompletion_wraps_plain_failure VMistral
                    (sample_request "mistral-large" None) None
                    (rejecting_env rate_limit_error) initial_world eq_refl)
                 8 "API rate limit exceeded" eq_refl).
  - exact (proj2 (chatCompletion_wraps_plain_failure VGroq
                    (sample_request "llama3-8b-8192" None) None
                    (rejecting_env (ThrownValue "Unknown error string"))
                    initial_world eq_refl)
                 "Unknown error string" eq_refl).
Defined.

(* ===================================================================== *)
(** ** Streaming call: failures at set-up *)
(* ===================================================================== *)

(** The catch block of [streamChatCompletion] has no test on the class of the
    error: whatever the vendor call rejects with is wrapped, before any id is
    generated and before any chunk is yielded. *)
Lemma streamChatCompletion_setup_failure
      (v : Vendor) (request : ChatCompletionRequest)
      (options : option RequestOptions) (env : Env) (w : World) (e : Thrown) :
  stream_call env v request = Rejected e ->
  exists w',
    provider_streamChatCompletion (provider_of v) request options env w =
      (Throw (ThrownObject (next_addr w)
                (AISuiteError
                   (vendor_label v ++ " streaming error: " ++ message_or_unknown e)
                   (provider_name (provider_of v)) "STREAMING_ERROR")), w')
    /\ yielded (trace w') = yielded (trace w)
    /\ generated_ids (trace w') = generated_ids (trace w).
Proof.
  intros Hcall.
  assert (Hy : forall t ev, is_sdk_call ev = true ->
                 yielded (t ++ [ev]) = yielded t
                 /\ generated_ids (t ++ [ev]) = generated_ids t).
  { induction t as [|x t IH]; intros ev Hev.
    - destruct ev; try discriminate Hev; split; reflexivity.
    - destruct (IH ev Hev) as [IH1 IH2].
      destruct x; cbn; rewrite ?IH1, ?IH2; split; reflexivity. }
  destruct v.
  - apply stream_call_mistral in Hcall.
    cbn [provider_of provider_streamChatCompletion MistralProvider].
    unfold Mistral.streamChatCompletion, try_catch, bind,
      Mistral.client_chatStream, bind, emit.
    cbn. rewrite Hcall. cbn. eexists; split; [reflexivity|].
    cbn. apply Hy; reflexivity.
  - apply stream_call_groq in Hcall.
    cbn [provider_of provider_streamChatCompletion GroqProvider].
    unfold Groq.streamChatCompletion, try_catch, bind,
      Groq.client_create, bind, emit.
    cbn. rewrite Hcall. cbn. eexists; split; [reflexivity|].
    cbn. apply Hy; reflexivity.
Qed.

(** C2, as amended: [chatCompletion] of every provider rethrows a canonical
    error of the vendor call unchanged, as the very object that was thrown,
    and never wraps it into API_ERROR; [streamChatCompletion] wraps every
    rejection of the vendor call, be it a canonical error, a plain [Error] or
    a value that is no [Error], into a new error of kind STREAMING_ERROR
    whose message is the vendor's label and " streaming error: " followed by
    the message of the rejection, or by "Unknown error" when the rejection is
    no [Error]. *)
Theorem canonical_error_rethrown_by_chatCompletion_only
        (v : Vendor) (request : ChatCompletionRequest)
        (options : option RequestOptions) (env : Env) (w : World) (e : Thrown) :
  (instanceof_AISuiteError e = true ->
   truthy (stream request) = false ->
   completion_call env v request = Rejected e ->
   fst (provider_chatCompletion (provider_of v) request options env w) = Throw e)
  /\
  (stream_call env v request = Rejected e ->
   fst (provider_streamChatCompletion (provider_of v) request options env w) =
     Throw (ThrownObject (next_addr w)
              (AISuiteError
                 (vendor_label v ++ " streaming error: " ++ message_or_unknown e)
                 (provider_name (provider_of v)) "STREAMING_ERROR"))).
Proof.
  split.
  - intros Hcanon Hs Hcall.
    rewrite (chatCompletion_vendor_failure v request options env w e Hs Hcall).
    rewrite Hcanon. reflexivity.
  - intros Hcall.
    destruct (streamChatCompletion_setup_failure v request options env w e Hcall)
      as [w' [Hrun _]].
    rewrite Hrun. reflexivity.
Qed.

Lemma canonical_error_rethrown_by_chatCompletion_only_witness :
  fst (Groq.chatCompletion (sample_request "llama3-8b-8192" None) None
         (rejecting_env custom_error) initial_world) = Throw custom_error
  /\
  fst (Groq.streamChatCompletion (sample_request "llama3-8b-8192" None) None
         (rejecting_env custom_error) initial_world) =
    Throw (ThrownObject 100
             (AISuiteError "Groq streaming error: Custom error" "groq"
                           "STREAMING_ERROR"))
  /\
  fst (Mistral.streamChatCompletion (sample_request "mistral-large" None) None
         (rejecting_env (ThrownValue "Unknown streaming error")) initial_world) =
    Throw (ThrownObject 100
             (AISuiteError "Mistral streaming error: Unknown error" "mistral"
                           "STREAMING_ERROR")).
Proof.
  pose proof (canonical_error_rethrown_by_chatCompletion_only VGroq
                (sample_request "llama3-8b-8192" None) None
                (rejecting_env custom_error) initial_world custom_error)
    as [Hchat Hstream].
  pose proof (canonical_error_rethrown_by_chatCompletion_only VMistral
                (sample_request "mistral-large" None) None
                (rejecting_env (ThrownValue "Unknown streaming error"))
                initial_world (ThrownValue "Unknown streaming error"))
    as [_ Hvalue].
  split; [|split].
  - exact (Hchat eq_refl eq_refl eq_refl).
  - exact (Hstream eq_refl).
  - exact (Hvalue eq_refl).
Defined.

(** C2, as stated, fails: the Mistral streaming call whose vendor call
    rejects with a canonical error of code CUSTOM_ERROR rejects with another
    object, of kind STREAMING_ERROR. *)
Lemma canonical_error_rewrapped_by_stream :
  ~ canonical_errors_rethrown_by_both_operations.
Proof.
  intros H.
  destruct (H VMistral (sample_request "mistral-large" None) None
              (rejecting_env custom_error) initial_world custom_error eq_refl)
    as [_ Hstream].
  specialize (Hstream eq_refl).
  vm_compute in Hstream.
  discriminate Hstream.
Qed.

(* ===================================================================== *)
(** ** Streaming call: the loop over the native stream *)
(* ===================================================================== *)

Lemma yielded_app (t1 t2 : list Event) :
  yielded (t1 ++ t2) = yielded t1 ++ yielded t2.
Proof.
  induction t1 as [|x t1 IH]; [reflexivity|].
  destruct x; cbn; rewrite IH; reflexivity.
Qed.

Lemma generated_ids_app (t1 t2 : list Event) :
  generated_ids (t1 ++ t2) = generated_ids t1 ++ generated_ids t2.
Proof.
  induction t1 as [|x t1 IH]; [reflexivity|].
  destruct x; cbn; rewrite IH; reflexivity.
Qed.

Lemma yielded_map_Yield (out : list ChatCompletionChunk) :
  yielded (map Yield out) = out.
Proof.
  induction out as [|c out IH]; cbn; [|rewrite IH]; reflexivity.
Qed.

Lemma generated_ids_map_Yield (out : list ChatCompletionChunk) :
  generated_ids (map Yield out) = [].
Proof.
  induction out as [|c out IH]; cbn; auto.
Qed.

Lemma listener_events_silent (options : option RequestOptions) :
  yielded (listener_events options) = []
  /\ generated_ids (listener_events options) = [].
Proof.
  unfold listener_events. destruct (signal_of options); split; reflexivity.
Qed.

Lemma listen_abort_run (options : option RequestOptions) (env : Env) (w : World) :
  listen_abort options env w =
    (Return tt,
     mkWorld (trace w ++ listener_events options) (next_addr w) (clock_reads w)
             (ids_generated w)).
Proof.
  unfold listen_abort, listener_events.
  destruct (signal_of options); cbn; [reflexivity|].
  rewrite app_nil_r. destruct w; reflexivity.
Qed.

(** The loop delivers the events in order.  Each iteration adds at most one
    chunk to the trace; when no iteration throws, the chunks are in one-to-one
    correspondence with the events and the loop ends as the native stream
    does. *)
Lemma for_await_events_trace {E : Type} (env : Env) (body : E -> M unit)
      (Q : ChatCompletionChunk -> Prop) (P : E -> ChatCompletionChunk -> Prop) :
  forall evs : list E,
    Forall (yields_or_throws env body Q) evs ->
    forall (fin : option Thrown) (w : World),
    exists o w' out,
      for_await_events evs fin body env w = (o, w')
      /\ trace w' = trace w ++ map Yield out
      /\ Forall Q out
      /\ (Forall (yields_one env body P) evs ->
          Forall2 P evs out
          /\ o = match fin with None => Return tt | Some e => Throw e end).
Proof.
  induction evs as [|ev evs IH]; intros Hall fin w.
  - exists (match fin with None => Return tt | Some e => Throw e end), w, [].
    cbn. rewrite app_nil_r.
    destruct fin; repeat split; constructor.
  - inversion Hall as [|? ? Hev Hrest]; subst.
    cbn [for_await_events]. unfold bind at 1.
    destruct (Hev w) as [(c & w1 & Hb & Ht & Hq) | (e & w1 & Hb & Ht)].
    + rewrite Hb.
      destruct (IH Hrest fin w1) as (o & w' & out & Hrun & Htr & HQ & HP).
      exists o, w', (c :: out).
      split; [exact Hrun|].
      split; [rewrite Htr, Ht, <- app_assoc; reflexivity|].
      split; [constructor; assumption|].
      intros HF. inversion HF as [|? ? H1 H2]; subst.
      destruct (H1 w) as (c' & w1' & Hb' & Ht' & Hp').
      rewrite Hb in Hb'. injection Hb' as <-.
      rewrite Ht in Ht'. apply app_inv_head in Ht'. injection Ht' as <-.
      destruct (HP H2) as [HP2 Ho].
      split; [constructor; assumption | exact Ho].
    + rewrite Hb.
      exists (Throw e), w1, [].
      split; [reflexivity|].
      split; [cbn; rewrite app_nil_r; exact Ht|].
      split; [constructor|].
      intros HF. inversion HF as [|? ? H1 H2]; subst.
      destruct (H1 w) as (c' & w1' & Hb' & _).
      rewrite Hb in Hb'. discriminate Hb'.
Qed.

(** Groq's adapter never throws: it returns one chunk with the stream's id
    and the event's deltas and leaves the trace alone. *)
Lemma groq_adaptStreamResponse_run
      (chunk : GroqSdk.ChatCompletionChunk) (streamId : string)
      (env : Env) (w : World) :
  exists c w',
    Groq.adaptStreamResponse chunk streamId env w = (Return c, w')
    /\ trace w' = trace w
    /\ groq_adapted streamId chunk c.
Proof.
  unfold Groq.adaptStreamResponse, bind, Date_now, ret.
  eexists; eexists; split; [reflexivity|].
  split; [reflexivity|].
  unfold groq_adapted, chunk_content, groq_event_content, first_delta; cbn.
  split; [reflexivity|].
  split.
  - rewrite map_map. reflexivity.
  - destruct (GroqSdk.chunk_choices chunk); reflexivity.
Qed.

(** Mistral's adapter returns one chunk, built from the first choice, on an
    event that has one. *)
Lemma mistral_adaptStreamResponse_run
      (response : MistralSdk.ChatCompletionResponseChunk) (streamId : string)
      (env : Env) (w : World) :
  mistral_has_delta response ->
  exists c w',
    Mistral.adaptStreamResponse response streamId env w = (Return c, w')
    /\ trace w' = trace w
    /\ mistral_adapted streamId response c.
Proof.
  unfold mistral_has_delta. intros Hne.
  unfold Mistral.adaptStreamResponse, unix_seconds, bind, Date_now, ret,
    mistral_adapted, chunk_content, mistral_event_content, first_delta.
  destruct (MistralSdk.chunk_choices response) as [|first rest];
    [congruence|].
  cbn. eexists; eexists; split; [reflexivity|].
  cbn. repeat split; reflexivity.
Qed.

(** On an event without choice it throws a [TypeError], and leaves the trace
    alone. *)
Lemma mistral_adaptStreamResponse_no_choice
      (response : MistralSdk.ChatCompletionResponseChunk) (streamId : string)
      (env : Env) (w : World) :
  MistralSdk.chunk_choices response = [] ->
  exists e w',
    Mistral.adaptStreamResponse response streamId env w = (Throw e, w')
    /\ trace w' = trace w.
Proof.
  intros Hnil.
  unfold Mistral.adaptStreamResponse, unix_seconds, bind, Date_now, ret.
  rewrite Hnil. cbn. eexists; eexists; split; reflexivity.
Qed.

Lemma groq_body_yields_one (streamId : string) (env : Env)
      (ev : GroqSdk.ChatCompletionChunk) :
  yields_one env (groq_body streamId) (groq_adapted streamId) ev.
Proof.
  intros w.
  destruct (groq_adaptStreamResponse_run ev streamId env w) as (c & w1 & Hrun & Ht & HP).
  exists c. eexists.
  unfold groq_body, bind. rewrite Hrun. cbn.
  split; [reflexivity|]. cbn. rewrite Ht. split; [reflexivity | exact HP].
Qed.

Lemma mistral_body_yields_one (streamId : string) (env : Env)
      (ev : MistralSdk.ChatCompletionResponseChunk) :
  mistral_has_delta ev ->
  yields_one env (mistral_body streamId) (mistral_adapted streamId) ev.
Proof.
  intros Hne w.
  destruct (mistral_adaptStreamResponse_run ev streamId env w Hne)
    as (c & w1 & Hrun & Ht & HP).
  exists c. eexists.
  unfold mistral_body, bind. rewrite Hrun. cbn.
  split; [reflexivity|]. cbn. rewrite Ht. split; [reflexivity | exact HP].
Qed.

Lemma yields_one_or_throws {E : Type} (env : Env) (body : E -> M unit)
      (P : E -> ChatCompletionChunk -> Prop) (Q : ChatCompletionChunk -> Prop) (ev : E) :
  (forall c, P ev c -> Q c) ->
  yields_one env body P ev -> yields_or_throws env body Q ev.
Proof.
  intros HPQ H w. left.
  destruct (H w) as (c & w' & Hb & Ht & Hp).
  exists c, w'. auto.
Qed.

Lemma groq_body_yields_or_throws (streamId : string) (env : Env)
      (ev : GroqSdk.ChatCompletionChunk) :
  yields_or_throws env (groq_body streamId) (has_stream_id streamId) ev.
Proof.
  apply yields_one_or_throws with (P := groq_adapted streamId).
  - intros c [Hid _]. exact Hid.
  - apply groq_body_yields_one.
Qed.

Lemma mistral_body_yields_or_throws (streamId : string) (env : Env)
      (ev : MistralSdk.ChatCompletionResponseChunk) :
  yields_or_throws env (mistral_body streamId) (has_stream_id streamId) ev.
Proof.
  destruct (MistralSdk.chunk_choices ev) as [|first rest] eqn:Hch.
  - intros w. right.
    destruct (mistral_adaptStreamResponse_no_choice ev streamId env w Hch)
      as (e & w' & Hrun & Ht).
    exists e, w'. unfold mistral_body, bind. rewrite Hrun. auto.
  - apply yields_one_or_throws with (P := mistral_adapted streamId).
    + intros c [Hid _]. exact Hid.
    + apply mistral_body_yields_one. unfold mistral_has_delta. congruence.
Qed.

(** The run of Mistral's streaming call once the vendor call has resolved
    with the native stream [s]. *)
Lemma mistral_stream_run
      (request : ChatCompletionRequest) (options : option RequestOptions)
      (env : Env) (w : World)
      (s : NativeStream MistralSdk.ChatCompletionResponseChunk) :
  mistral_chatStream env (Mistral.adaptRequest request) = Resolved s ->
  exists o w' out,
    Mistral.streamChatCompletion request options env w = (o, w')
    /\ trace w' =
         trace w
         ++ [MistralChatStream (Mistral.adaptRequest request);
             GenerateId (id_source env (ids_generated w))]
         ++ listener_events options ++ map Yield out
    /\ Forall (has_stream_id (id_source env (ids_generated w))) out
    /\ (Forall mistral_has_delta (events s) ->
        Forall2 (mistral_adapted (id_source env (ids_generated w))) (events s) out
        /\ (ending s = None -> o = Return tt)).
Proof.
  intros Hcall.
  set (sid := id_source env (ids_generated w)).
  unfold Mistral.streamChatCompletion, try_catch.
  unfold bind at 1. unfold Mistral.client_chatStream. unfold bind at 1.
  cbn [emit]. rewrite Hcall. cbn [await ret].
  unfold bind at 1. cbn [generateId trace next_addr clock_reads ids_generated].
  fold sid.
  unfold bind at 1. rewrite listen_abort_run.
  cbn [trace next_addr clock_reads ids_generated].
  unfold for_await.
  match goal with
  | |- context [for_await_events ?evs ?fin ?body env ?w0] =>
      destruct (for_await_events_trace env (mistral_body sid)
                  (has_stream_id sid) (mistral_adapted sid) evs
                  (proj2 (Forall_forall _ _)
                     (fun ev _ => mistral_body_yields_or_throws sid env ev))
                  fin w0)
        as (o & w1 & out & Hrun & Htr & HQ & HP)
  end.
  change (fun chunk => (c <- Mistral.adaptStreamResponse chunk sid ;; yield c)%js)
    with (mistral_body sid).
  rewrite Hrun.
  cbn [trace] in Htr.
  assert (Hshape : trace w1 =
            trace w ++ [MistralChatStream (Mistral.adaptRequest request); GenerateId sid]
            ++ listener_events options ++ map Yield out).
  { rewrite Htr. rewrite <- !app_assoc. reflexivity. }
  assert (Htotal : Forall mistral_has_delta (events s) ->
            Forall2 (mistral_adapted sid) (events s) out
            /\ o = match ending s with None => Return tt | Some e => Throw e end).
  { intros Hall. apply HP.
    apply Forall_forall. intros ev Hin.
    apply mistral_body_yields_one.
    exact (proj1 (Forall_forall _ _) Hall ev Hin). }
  destruct o as [[]|e].
  - exists (Return tt), w1, out.
    repeat split; try assumption; apply Htotal; assumption.
  - eexists; eexists; exists out.
    split; [reflexivity|].
    split; [exact Hshape|].
    split; [exact HQ|].
    intros Hall. destruct (Htotal Hall) as [HF Ho].
    split; [exact HF|].
    intros Hend. rewrite Hend in Ho. discriminate Ho.
Qed.

(** The run of Groq's streaming call once the vendor call has resolved. *)
Lemma groq_stream_run
      (request : ChatCompletionRequest) (options : option RequestOptions)
      (env : Env) (w : World) (r : GroqSdk.CreateResult) :
  groq_create env (Groq.adaptRequest request) = Resolved r ->
  exists o w' out,
    Groq.streamChatCompletion request options env w = (o, w')
    /\ trace w' =
         trace w
         ++ [GroqCreate (Groq.adaptRequest request);
             GenerateId (id_source env (ids_generated w))]
         ++ listener_events options ++ map Yield out
    /\ Forall (has_stream_id (id_source env (ids_generated w))) out
    /\ (forall s, r = GroqSdk.Stream s ->
        Forall2 (groq_adapted (id_source env (ids_generated w))) (events s) out
        /\ (ending s = None -> o = Return tt)).
Proof.
  intros Hcall.
  set (sid := id_source env (ids_generated w)).
  unfold Groq.streamChatCompletion, try_catch.
  unfold bind at 1. unfold Groq.client_create. unfold bind at 1.
  cbn [emit]. rewrite Hcall. cbn [await ret].
  unfold bind at 1. cbn [generateId trace next_addr clock_reads ids_generated].
  fold sid.
  unfold bind at 1. rewrite listen_abort_run.
  cbn [trace next_addr clock_reads ids_generated].
  destruct r as [c|s]; cbn [Groq.for_await_of].
  - cbn. eexists; eexists; exists [].
    split; [reflexivity|].
    cbn [trace map]. rewrite app_nil_r.
    split; [rewrite <- !app_assoc; reflexivity|].
    split; [constructor|].
    intros s Hs. discriminate Hs.
  - unfold for_await.
    match goal with
    | |- context [for_await_events ?evs ?fin ?body env ?w0] =>
        destruct (for_await_events_trace env (groq_body sid)
                    (has_stream_id sid) (groq_adapted sid) evs
                    (proj2 (Forall_forall _ _)
                       (fun ev _ => groq_body_yields_or_throws sid env ev))
                    fin w0)
          as (o & w1 & out & Hrun & Htr & HQ & HP)
    end.
    change (fun chunk => (c <- Groq.adaptStreamResponse chunk sid ;; yield c)%js)
      with (groq_body sid).
    rewrite Hrun.
    cbn [trace] in Htr.
    assert (Hshape : trace w1 =
              trace w ++ [GroqCreate (Groq.adaptRequest request); GenerateId sid]
              ++ listener_events options ++ map Yield out).
    { rewrite Htr. rewrite <- !app_assoc. reflexivity. }
    assert (Htotal :
              Forall2 (groq_adapted sid) (events s) out
              /\ o = match ending s with None => Return tt | Some e => Throw e end).
    { apply HP. apply Forall_forall. intros ev _. apply groq_body_yields_one. }
    destruct Htotal as [HF Ho].
    destruct o as [[]|e].
    + exists (Return tt), w1, out.
      split; [reflexivity|].
      split; [exact Hshape|].
      split; [exact HQ|].
      intros s' Hs'. injection Hs' as <-.
      split; [exact HF | intros _; reflexivity].
    + eexists; eexists; exists out.
      split; [reflexivity|].
      split; [exact Hshape|].
      split; [exact HQ|].
      intros s' Hs'. injection Hs' as <-.
      split; [exact HF|].
      intros Hend. rewrite Hend in Ho. discriminate Ho.
Qed.

(* ===================================================================== *)
(** ** Streaming call: ids and contents *)
(* ===================================================================== *)

Lemma stream_call_resolved_mistral (env : Env) (request : ChatCompletionRequest) :
  stream_call env VMistral request = Resolved tt ->
  exists s, mistral_chatStream env (Mistral.adaptRequest request) = Resolved s.
Proof.
  unfold stream_call.
  destruct (mistral_chatStream env (Mistral.adaptRequest request)) as [s|e];
    [eauto | discriminate].
Qed.

Lemma stream_call_resolved_groq (env : Env) (request : ChatCompletionRequest) :
  stream_call env VGroq request = Resolved tt ->
  exists r, groq_create env (Groq.adaptRequest request) = Resolved r.
Proof.
  unfold stream_call.
  destruct (groq_create env (Groq.adaptRequest request)) as [r|e];
    [eauto | discriminate].
Qed.

(** C5: a run of [streamChatCompletion] generates the id of its stream
    exactly once, after the vendor call has resolved and before any chunk is
    yielded, and every chunk it yields carries that id; when the vendor call
    rejects, the run yields no chunk at all.  The ids of the native events do
    not reach the output: replacing them changes nothing. *)
Theorem stream_id_generated_once_and_shared
        (v : Vendor) (request : ChatCompletionRequest)
        (options : option RequestOptions) (env : Env) (w : World) :
  (stream_call env v request = Resolved tt ->
   exists o w' rest,
     provider_streamChatCompletion (provider_of v) request options env w = (o, w')
     /\ trace w' =
          trace w
          ++ [stream_call_event v request; GenerateId (id_source env (ids_generated w))]
          ++ rest
     /\ generated_ids rest = []
     /\ Forall (has_stream_id (id_source env (ids_generated w))) (yielded rest))
  /\
  (forall e, stream_call env v request = Rejected e ->
   exists o w',
     provider_streamChatCompletion (provider_of v) request options env w = (o, w')
     /\ yielded (trace w') = yielded (trace w)
     /\ generated_ids (trace w') = generated_ids (trace w))
  /\
  (forall i ev streamId,
      Mistral.adaptStreamResponse (mistral_with_id i ev) streamId =
      Mistral.adaptStreamResponse ev streamId)
  /\
  (forall i ev streamId,
      Groq.adaptStreamResponse (groq_with_id i ev) streamId =
      Groq.adaptStreamResponse ev streamId).
Proof.
  split; [|split; [|split]].
  - intros Hcall.
    destruct v.
    + destruct (stream_call_resolved_mistral env request Hcall) as [s Hs].
      destruct (mistral_stream_run request options env w s Hs)
        as (o & w' & out & Hrun & Htr & Hid & _).
      exists o, w', (listener_events options ++ map Yield out).
      split; [exact Hrun|].
      split; [exact Htr|].
      rewrite generated_ids_app, yielded_app, generated_ids_map_Yield,
        yielded_map_Yield.
      destruct (listener_events_silent options) as [-> ->].
      split; [reflexivity | exact Hid].
    + destruct (stream_call_resolved_groq env request Hcall) as [r Hr].
      destruct (groq_stream_run request options env w r Hr)
        as (o & w' & out & Hrun & Htr & Hid & _).
      exists o, w', (listener_events options ++ map Yield out).
      split; [exact Hrun|].
      split; [exact Htr|].
      rewrite generated_ids_app, yielded_app, generated_ids_map_Yield,
        yielded_map_Yield.
      destruct (listener_events_silent options) as [-> ->].
      split; [reflexivity | exact Hid].
  - intros e Hcall.
    destruct (streamChatCompletion_setup_failure v request options env w e Hcall)
      as (w' & Hrun & Hy & Hg).
    eexists; exists w'. split; [exact Hrun | split; assumption].
  - reflexivity.
  - reflexivity.
Qed.

Lemma stream_id_generated_once_and_shared_witness :
  exists o w' rest,
    Mistral.streamChatCompletion (sample_request "mistral-large" None)
      (Some (mkOptions (Some 1%nat))) (resolving_env None) initial_world = (o, w')
    /\ trace w' =
         [MistralChatStream (Mistral.adaptRequest (sample_request "mistral-large" None));
          GenerateId "chatcmpl-k3j9x0q2m"] ++ rest
    /\ generated_ids rest = []
    /\ Forall (has_stream_id "chatcmpl-k3j9x0q2m") (yielded rest).
Proof.
  exact (proj1 (stream_id_generated_once_and_shared VMistral
                  (sample_request "mistral-large" None)
                  (Some (mkOptions (Some 1%nat))) (resolving_env None) initial_world)
               eq_refl).
Defined.

Lemma Forall2_map_eq {A B C : Type} (f : A -> C) (g : B -> C) (l1 : list A) (l2 : list B) :
  Forall2 (fun a b => g b = f a) l1 l2 -> map g l2 = map f l1.
Proof.
  induction 1 as [|a b l1 l2 Hab _ IH]; cbn; [reflexivity|].
  rewrite Hab, IH. reflexivity.
Qed.

Lemma Forall2_weaken {A B : Type} (P Q : A -> B -> Prop) (l1 : list A) (l2 : list B) :
  (forall a b, P a b -> Q a b) -> Forall2 P l1 l2 -> Forall2 Q l1 l2.
Proof.
  intros HPQ. induction 1; constructor; auto.
Qed.

(** C7, as amended: Groq's [adaptStreamResponse] turns every native event
    into one output chunk that keeps the delta of every choice, so that its
    [delta.content] is the content of the event's delta; Mistral's does so
    for every native event that has at least one choice, reading the delta
    of the first one.  Hence the chunks yielded by a Groq run, and those
    yielded by a Mistral run over a native stream whose events all have a
    choice, are in one-to-one, order-preserving correspondence with the
    events of the native stream, and the concatenation of their contents is
    the concatenation of the events' contents. *)
Theorem flat_stream_chunks_mirror_events :
  (forall chunk streamId env w,
      exists c w',
        Groq.adaptStreamResponse chunk streamId env w = (Return c, w')
        /\ chunk_content c = groq_event_content chunk
        /\ map delta (chunk_choices c) = map GroqSdk.delta (GroqSdk.chunk_choices chunk))
  /\
  (forall response streamId env w,
      mistral_has_delta response ->
      exists c w',
        Mistral.adaptStreamResponse response streamId env w = (Return c, w')
        /\ chunk_content c = mistral_event_content response)
  /\
  (forall request options env w s,
      mistral_chatStream env (Mistral.adaptRequest request) = Resolved s ->
      Forall mistral_has_delta (events s) ->
      exists out,
        yielded (trace (snd (Mistral.streamChatCompletion request options env w))) =
          yielded (trace w) ++ out
        /\ Forall2 (fun ev c => chunk_content c = mistral_event_content ev) (events s) out
        /\ Js.join (map chunk_text out) = Js.join (map mistral_event_text (events s)))
  /\
  (forall request options env w s,
      groq_create env (Groq.adaptRequest request) = Resolved (GroqSdk.Stream s) ->
      exists out,
        yielded (trace (snd (Groq.streamChatCompletion request options env w))) =
          yielded (trace w) ++ out
        /\ Forall2 (fun ev c => chunk_content c = groq_event_content ev) (events s) out
        /\ Js.join (map chunk_text out) = Js.join (map groq_event_text (events s))).
Proof.
  split; [|split; [|split]].
  - intros chunk streamId env w.
    destruct (groq_adaptStreamResponse_run chunk streamId env w)
      as (c & w' & Hrun & _ & _ & Hd & Hc).
    exists c, w'. auto.
  - intros response streamId env w Hne.
    destruct (mistral_adaptStreamResponse_run response streamId env w Hne)
      as (c & w' & Hrun & _ & _ & _ & Hc).
    exists c, w'. auto.
  - intros request options env w s Hcall Hall.
    destruct (mistral_stream_run request options env w s Hcall)
      as (o & w' & out & Hrun & Htr & _ & Htotal).
    destruct (Htotal Hall) as [HF _].
    assert (HF' : Forall2 (fun ev c => chunk_content c = mistral_event_content ev)
                          (events s) out).
    { revert HF. apply Forall2_weaken. intros ev c (_ & _ & Hc). exact Hc. }
    exists out. rewrite Hrun. cbn [snd]. rewrite Htr.
    rewrite !yielded_app, yielded_map_Yield.
    destruct (listener_events_silent options) as [-> _]. cbn [yielded app].
    split; [reflexivity|]. split; [exact HF'|].
    f_equal. unfold chunk_text, mistral_event_text.
    rewrite <- (map_map chunk_content content_text).
    rewrite <- (map_map mistral_event_content content_text).
    f_equal. apply Forall2_map_eq. exact HF'.
  - intros request options env w s Hcall.
    destruct (groq_stream_run request options env w _ Hcall)
      as (o & w' & out & Hrun & Htr & _ & Htotal).
    destruct (Htotal s eq_refl) as [HF _].
    assert (HF' : Forall2 (fun ev c => chunk_content c = groq_event_content ev)
                          (events s) out).
    { revert HF. apply Forall2_weaken. intros ev c (_ & _ & Hc). exact Hc. }
    exists out. rewrite Hrun. cbn [snd]. rewrite Htr.
    rewrite !yielded_app, yielded_map_Yield.
    destruct (listener_events_silent options) as [-> _]. cbn [yielded app].
    split; [reflexivity|]. split; [exact HF'|].
    f_equal. unfold chunk_text, groq_event_text.
    rewrite <- (map_map chunk_content content_text).
    rewrite <- (map_map groq_event_content content_text).
    f_equal. apply Forall2_map_eq. exact HF'.
Qed.

Lemma flat_stream_chunks_mirror_events_witness :
  exists out,
    yielded (trace (snd (Mistral.streamChatCompletion
                           (sample_request "mistral-large" None) None
                           (resolving_env None) initial_world))) = out
    /\ Forall2 (fun ev c => chunk_content c = mistral_event_content ev)
               sample_mistral_events out
    /\ Js.join (map chunk_text out) = "Hello! How can I help?".
Proof.
  refine (proj1 (proj2 (proj2 flat_stream_chunks_mirror_events))
            (sample_request "mistral-large" None) None (resolving_env None)
            initial_world (mkStream sample_mistral_events None) eq_refl _).
  repeat constructor; discriminate.
Defined.

(** C7, as stated, fails: a native Mistral stream that delivers "Hello", an
    event without choices and "! How can I help?" yields the one chunk
    "Hello" and then fails, so the chunks neither match the events one for
    one nor carry the whole text. *)
Lemma mistral_stream_loses_events_after_choiceless_one :
  ~ flat_streams_mirror_every_event.
Proof.
  intros (_ & _ & Hstream & _).
  destruct (Hstream (sample_request "mistral-large" None) None broken_stream_env
              initial_world _ eq_refl) as (out & Hy & _ & Hjoin).
  vm_compute in Hy. subst out.
  vm_compute in Hjoin. discriminate Hjoin.
Qed.

(* ===================================================================== *)
(** ** Adapted responses *)
(* ===================================================================== *)

(** Mistral's [adaptResponse] on a native response that has a first choice
    and a usage record: the clock is read once and the response is built
    from the first choice alone. *)
Lemma mistral_adaptResponse_run
      (response : MistralSdk.ChatCompletionResponse)
      (first : MistralSdk.ResponseChoice) (rest : list MistralSdk.ResponseChoice)
      (u : Usage) (env : Env) (w : World) :
  MistralSdk.choices response = first :: rest ->
  MistralSdk.usage response = Some u ->
  Mistral.adaptResponse response env w =
    (Return {| id := MistralSdk.id response;
               object := "chat.completion";
               created := (date_now env (clock_reads w) / 1000)%Z;
               response_model := MistralSdk.response_model response;
               choices := [assistant_reply first];
               usage := u |},
     mkWorld (trace w) (next_addr w) (S (clock_reads w)) (ids_generated w)).
Proof.
  intros Hch Hu.
  unfold Mistral.adaptResponse, unix_seconds, bind, Date_now, ret.
  rewrite Hch, Hu. cbn. destruct u; reflexivity.
Qed.

(** Whatever Mistral's [adaptResponse] returns has exactly one choice, the
    reply built from the first native choice. *)
Lemma mistral_adaptResponse_returns
      (response : MistralSdk.ChatCompletionResponse) (env : Env) (w w' : World)
      (r : ChatCompletionResponse) :
  Mistral.adaptResponse response env w = (Return r, w') ->
  exists first,
    hd_error (MistralSdk.choices response) = Some first
    /\ choices r = [assistant_reply first].
Proof.
  unfold Mistral.adaptResponse, unix_seconds, bind, Date_now, ret.
  destruct (MistralSdk.choices response) as [|first rest]; cbn; [discriminate|].
  destruct (MistralSdk.usage response) as [u|]; cbn; [|discriminate].
  intros H. injection H as <- _. exists first. split; reflexivity.
Qed.

(** C10: Mistral's [adaptResponse], on a native response of the SDK's type
    that has a first choice, returns a choices list of length exactly one,
    with index 0, built from the first native choice alone: further native
    choices are dropped, and the assistant message has the role and the
    content only, without the native tool calls.  Nothing else is ever
    returned. *)
Theorem mistral_adaptResponse_single_choice
        (response : MistralSdk.ChatCompletionResponse) (env : Env) (w : World) :
  (forall first rest,
      mistral_well_typed response ->
      MistralSdk.choices response = first :: rest ->
      exists r w',
        Mistral.adaptResponse response env w = (Return r, w')
        /\ choices r = [assistant_reply first]
        /\ length (choices r) = 1%nat
        /\ map index (choices r) = [0%Z]
        /\ map message (choices r) =
             [ {| role := assistant;
                  content := MistralSdk.content (MistralSdk.message first);
                  name := None; tool_calls := None; tool_call_id := None |} ])
  /\
  (forall r w',
      Mistral.adaptResponse response env w = (Return r, w') ->
      exists first,
        hd_error (MistralSdk.choices response) = Some first
        /\ choices r = [assistant_reply first]).
Proof.
  split.
  - intros first rest Hty Hch.
    unfold mistral_well_typed in Hty.
    destruct (MistralSdk.usage response) as [u|] eqn:Hu; [|congruence].
    rewrite (mistral_adaptResponse_run response first rest u env w Hch Hu).
    eexists; eexists; split; [reflexivity|].
    cbn. repeat split; reflexivity.
  - intros r w'. apply mistral_adaptResponse_returns.
Qed.

Lemma mistral_adaptResponse_single_choice_witness :
  exists r w',
    Mistral.adaptResponse (sample_mistral_response (Some sample_usage))
      (resolving_env (Some sample_usage)) initial_world = (Return r, w')
    /\ choices r =
         [ {| index := 0;
              message :=
                {| role := assistant; content := Some "Hello! How can I help you?";
                   name := None; tool_calls := None; tool_call_id := None |};
              finish_reason := Some "stop" |} ]
    /\ length (choices r) = 1%nat
    /\ map index (choices r) = [0%Z]
    /\ map message (choices r) =
         [ {| role := assistant; content := Some "Hello! How can I help you?";
              name := None; tool_calls := None; tool_call_id := None |} ].
Proof.
  refine (proj1 (mistral_adaptResponse_single_choice
                   (sample_mistral_response (Some sample_usage))
                   (resolving_env (Some sample_usage)) initial_world)
                _ _ _ eq_refl).
  unfold mistral_well_typed. cbn. discriminate.
Defined.

(** C8, as amended: Groq's [adaptResponse] answers a native response
    without usage with the zero-valued usage record, and the call that uses
    it does not fail; Mistral's [adaptResponse] has no default: it copies the
    three counters of the usage record that the native response carries. *)
Theorem usage_defaulted_by_groq_copied_by_mistral :
  (forall response : GroqSdk.ChatCompletion,
      GroqSdk.usage response = None ->
      usage (Groq.adaptResponse response) =
        {| prompt_tokens := 0; completion_tokens := 0; total_tokens := 0 |})
  /\
  (forall request options env w c,
      truthy (stream request) = false ->
      groq_create env (Groq.adaptRequest request) = Resolved (GroqSdk.Completion c) ->
      fst (Groq.chatCompletion request options env w) = Return (Groq.adaptResponse c))
  /\
  (forall response first rest u env w,
      MistralSdk.choices response = first :: rest ->
      MistralSdk.usage response = Some u ->
      exists r w',
        Mistral.adaptResponse response env w = (Return r, w')
        /\ usage r = u).
Proof.
  split; [|split].
  - intros response Hu. unfold Groq.adaptResponse. cbn. rewrite Hu. reflexivity.
  - intros request options env w c Hs Hcall.
    unfold Groq.chatCompletion, try_catch, bind, when, Groq.client_create, bind, emit.
    rewrite Hs. cbn. rewrite Hcall. reflexivity.
  - intros response first rest u env w Hch Hu.
    rewrite (mistral_adaptResponse_run response first rest u env w Hch Hu).
    eexists; eexists; split; reflexivity.
Qed.

Lemma usage_defaulted_by_groq_copied_by_mistral_witness :
  usage (Groq.adaptResponse (sample_groq_completion None)) =
    {| prompt_tokens := 0; completion_tokens := 0; total_tokens := 0 |}
  /\
  fst (Groq.chatCompletion (sample_request "llama3-8b-8192" None) None
         (resolving_env None) initial_world) =
    Return (Groq.adaptResponse (sample_groq_completion None))
  /\
  exists r w',
    Mistral.adaptResponse (sample_mistral_response (Some sample_usage))
      (resolving_env (Some sample_usage)) initial_world = (Return r, w')
    /\ usage r = sample_usage.
Proof.
  destruct usage_defaulted_by_groq_copied_by_mistral as (Hzero & Hcall & Hcopy).
  split; [|split].
  - exact (Hzero (sample_groq_completion None) eq_refl).
  - exact (Hcall (sample_request "llama3-8b-8192" None) None (resolving_env None)
                 initial_world (sample_groq_completion None) eq_refl eq_refl).
  - exact (Hcopy (sample_mistral_response (Some sample_usage)) _ _ sample_usage
                 (resolving_env (Some sample_usage)) initial_world eq_refl eq_refl).
Defined.

(** C8, as stated, fails: Mistral's [adaptResponse] throws on a native
    response without usage instead of defaulting it. *)
Lemma mistral_adaptResponse_throws_without_usage :
  ~ every_adaptResponse_defaults_usage.
Proof.
  intros [_ H].
  destruct (H (sample_mistral_response None) (resolving_env None) initial_world eq_refl)
    as (r & w' & Hrun & _).
  vm_compute in Hrun. discriminate Hrun.
Qed.

(* ===================================================================== *)
(** ** Client dispatch *)
(* ===================================================================== *)

Lemma split_first_app (sep : ascii) (before rest : string) :
  Js.includes sep before = false ->
  Client.split_first sep (before ++ String sep rest)%string = Some (before, rest).
Proof.
  induction before as [|c before IH]; cbn; intros Hno.
  - rewrite Ascii.eqb_refl. reflexivity.
  - destruct (Ascii.eqb c sep); [discriminate Hno|].
    rewrite (IH Hno). reflexivity.
Qed.

Lemma parseModel_prefixed (vendorKey vendorModelId : string) :
  Js.includes ":"%char vendorKey = false ->
  Client.parseModel (vendorKey ++ ":" ++ vendorModelId)%string = Some (vendorKey, vendorModelId).
Proof.
  intros Hno. unfold Client.parseModel. cbn [String.append].
  apply split_first_app. exact Hno.
Qed.

(** The parser accepts exactly the strings that hold a separator, and the
    vendor key it returns holds none. *)
Lemma split_first_inv (sep : ascii) (s before rest : string) :
  Client.split_first sep s = Some (before, rest) ->
  s = (before ++ String sep rest)%string /\ Js.includes sep before = false.
Proof.
  revert before.
  induction s as [|c s IH]; cbn; intros before H; [discriminate H|].
  destruct (Ascii.eqb c sep) eqn:Hc.
  - apply Ascii.eqb_eq in Hc. subst c.
    injection H as <- <-. split; reflexivity.
  - destruct (Client.split_first sep s) as [[b r]|]; [|discriminate H].
    injection H as <- <-.
    destruct (IH b eq_refl) as [-> Hno].
    split; [reflexivity|]. cbn. rewrite Hc. exact Hno.
Qed.

Lemma split_first_none (sep : ascii) (s : string) :
  Client.split_first sep s = None <-> Js.includes sep s = false.
Proof.
  induction s as [|c s IH]; cbn; [tauto|].
  destruct (Ascii.eqb c sep); [split; discriminate|].
  destruct (Client.split_first sep s) as [[b r]|].
  - split; [discriminate|]. intros H. apply IH in H. discriminate H.
  - split; [|reflexivity]. intros _. apply IH. reflexivity.
Qed.

(** C3: [chat.completions.create] splits [request.model] on the first
    separator only: the text before the first colon selects the provider and
    everything after it, further colons included, is the model id of the
    request the provider is handed; that request has every other field of
    the caller's request unchanged, so the provider never sees the vendor
    prefix.  A request whose [stream] field is true is answered with the
    provider's chunk sequence, not yet run; any other one with the outcome of
    the provider's non-streaming call.  "openai:gpt-4:vision" goes to "openai"
    with model "gpt-4:vision". *)
Theorem create_splits_on_first_separator
        (client : Client.t) (request : ChatCompletionRequest)
        (options : option RequestOptions)
        (vendorKey vendorModelId : string) (p : Provider) :
  Js.includes ":"%char vendorKey = false ->
  model request = (vendorKey ++ ":" ++ vendorModelId)%string ->
  Client.lookup vendorKey (Client.providers client) = Some p ->
  let forwarded :=
    {| model := vendorModelId;
       messages := messages request;
       temperature := temperature request;
       max_tokens := max_tokens request;
       top_p := top_p request;
       frequency_penalty := frequency_penalty request;
       presence_penalty := presence_penalty request;
       stop := stop request;
       user_id := user_id request;
       stream := stream request;
       tools := tools request;
       tool_choice := tool_choice request |} in
  Client.parseModel (model request) = Some (vendorKey, vendorModelId)
  /\ (exists run,
        Client.create client request options = Some run
        /\ forall env w,
             run env w =
               if truthy (stream request)
               then (Return (Client.ChunkSequence
                               (provider_streamChatCompletion p forwarded options)), w)
               else match provider_chatCompletion p forwarded options env w with
                    | (Return r, w') => (Return (Client.Response r), w')
                    | (Throw e, w') => (Throw e, w')
                    end)
  /\ Client.parseModel "openai:gpt-4:vision" = Some ("openai", "gpt-4:vision").
Proof.
  intros Hno Hmodel Hreg forwarded.
  assert (Hparse : Client.parseModel (model request) = Some (vendorKey, vendorModelId)).
  { rewrite Hmodel. apply parseModel_prefixed. exact Hno. }
  split; [exact Hparse|].
  split; [|reflexivity].
  unfold Client.create. rewrite Hparse, Hreg.
  eexists; split; [reflexivity|].
  intros env w.
  change (Client.with_model request vendorModelId) with forwarded.
  destruct (truthy (stream request)); [reflexivity|].
  unfold bind.
  destruct (provider_chatCompletion p forwarded options env w) as [[r|e] w'];
    reflexivity.
Qed.

Lemma create_splits_on_first_separator_witness :
  Client.parseModel "openai:gpt-4:vision" = Some ("openai", "gpt-4:vision")
  /\ (exists run,
        Client.create sample_client (sample_request "openai:gpt-4:vision" None) None
        = Some run
        /\ forall env w,
             run env w =
               (Return (Client.Response (echo_response "gpt-4:vision")), w))
  /\ Client.parseModel "openai:gpt-4:vision" = Some ("openai", "gpt-4:vision").
Proof.
  exact (create_splits_on_first_separator sample_client
           (sample_request "openai:gpt-4:vision" None) None
           "openai" "gpt-4:vision" (echo_provider "openai")
           eq_refl eq_refl eq_refl).
Defined.

(** C4: when the vendor prefix of the request's model names no registered
    provider, [chat.completions.create] fails with ProviderNotConfigured
    naming that vendor; whatever the registered providers are, the run leaves
    the trace as it was: none of their calls has run. *)
Theorem create_rejects_unregistered_vendor
        (client : Client.t) (request : ChatCompletionRequest)
        (options : option RequestOptions)
        (vendorKey vendorModelId : string) (env : Env) (w : World) :
  Js.includes ":"%char vendorKey = false ->
  model request = (vendorKey ++ ":" ++ vendorModelId)%string ->
  Client.isProviderConfigured client vendorKey = false ->
  exists run,
    Client.create client request options = Some run
    /\ run = throw_new (ProviderNotConfiguredError vendorKey)
    /\ run env w =
         (Throw (ThrownObject (next_addr w) (ProviderNotConfiguredError vendorKey)),
          mkWorld (trace w) (S (next_addr w)) (clock_reads w) (ids_generated w)).
Proof.
  intros Hno Hmodel Hreg.
  unfold Client.isProviderConfigured in Hreg.
  destruct (Client.lookup vendorKey (Client.providers client)) as [p|] eqn:Hlook;
    [discriminate Hreg|].
  unfold Client.create.
  rewrite Hmodel, (parseModel_prefixed vendorKey vendorModelId Hno), Hlook.
  eexists; split; [reflexivity|]. split; reflexivity.
Qed.

Lemma create_rejects_unregistered_vendor_witness :
  exists run,
    Client.create sample_client (sample_request "unknown:model" None) None = Some run
    /\ run = throw_new (ProviderNotConfiguredError "unknown")
    /\ run (resolving_env None) initial_world =
         (Throw (ThrownObject 100 (ProviderNotConfiguredError "unknown")),
          mkWorld [] 101 0 0).
Proof.
  exact (create_rejects_unregistered_vendor sample_client
           (sample_request "unknown:model" None) None "unknown" "model"
           (resolving_env None) initial_world eq_refl eq_refl eq_refl).
Defined.

(* ===================================================================== *)
(** ** Request adapters *)
(* ===================================================================== *)

Lemma replace_at_indexOf (pat rep s : string) (n : nat) :
  JsIndex.indexOf pat s = Some n ->
  Js.replace pat rep s =
    (JsIndex.take n s ++ rep ++ Js.slice (n + String.length pat) s)%string.
Proof.
  revert n. induction s as [|c s IH]; intros n; cbn [JsIndex.indexOf Js.replace].
  - destruct (Js.startsWith pat EmptyString); [|discriminate].
    intros H; injection H as <-. reflexivity.
  - destruct (Js.startsWith pat (String c s)).
    + intros H; injection H as <-. reflexivity.
    + destruct (JsIndex.indexOf pat s) as [m|]; [|discriminate].
      cbn. intros H; injection H as <-.
      rewrite (IH m eq_refl). reflexivity.
Qed.

Lemma replace_without_occurrence (pat rep s : string) :
  JsIndex.indexOf pat s = None -> Js.replace pat rep s = s.
Proof.
  induction s as [|c s IH]; cbn [JsIndex.indexOf Js.replace].
  - destruct (Js.startsWith pat EmptyString); [discriminate | reflexivity].
  - destruct (Js.startsWith pat (String c s)); [discriminate|].
    destruct (JsIndex.indexOf pat s); [discriminate|].
    intros _. rewrite (IH eq_refl). reflexivity.
Qed.

(** X1: Groq's [adaptRequest] undoes the prefix Groq's [adaptResponse] puts
    on the model: a request whose model is the model of an adapted response
    reaches the SDK with the native model id of that response. *)
Theorem groq_model_prefix_round_trip
        (response : GroqSdk.ChatCompletion) (request : ChatCompletionRequest) :
  model request = response_model (Groq.adaptResponse response) ->
  GroqSdk.model (Groq.adaptRequest request) = GroqSdk.response_model response.
Proof.
  intros H. unfold Groq.adaptRequest. cbn [GroqSdk.model]. rewrite H.
  reflexivity.
Qed.

Lemma groq_model_prefix_round_trip_witness :
  GroqSdk.model
    (Groq.adaptRequest
       (sample_request
          (response_model (Groq.adaptResponse (sample_groq_completion None))) None))
  = "llama3-8b-8192".
Proof.
  exact (groq_model_prefix_round_trip (sample_groq_completion None)
           (sample_request
              (response_model (Groq.adaptResponse (sample_groq_completion None))) None)
           eq_refl).
Defined.

(** X2: a model id in which the text "groq:" does not occur, such as the
    one the dispatcher hands over after stripping the vendor prefix, reaches
    the Groq SDK unchanged. *)
Theorem groq_model_without_prefix_unchanged (request : ChatCompletionRequest) :
  JsIndex.indexOf "groq:" (model request) = None ->
  GroqSdk.model (Groq.adaptRequest request) = model request.
Proof.
  intros H. unfold Groq.adaptRequest. cbn [GroqSdk.model].
  apply replace_without_occurrence. exact H.
Qed.

Lemma groq_model_without_prefix_unchanged_witness :
  GroqSdk.model (Groq.adaptRequest (sample_request "llama3-8b-8192" None))
  = "llama3-8b-8192".
Proof.
  exact (groq_model_without_prefix_unchanged
           (sample_request "llama3-8b-8192" None) eq_refl).
Defined.

(** X3: Groq's [adaptRequest] removes the first occurrence of "groq:"
    wherever it stands in the model id, not only at its start: a model id
    that holds the text at position [n] reaches the SDK as its first [n]
    characters followed by what comes after the occurrence, five characters
    shorter. *)
Theorem groq_model_first_occurrence_removed (request : ChatCompletionRequest) (n : nat) :
  JsIndex.indexOf "groq:" (model request) = Some n ->
  GroqSdk.model (Groq.adaptRequest request) =
    (JsIndex.take n (model request) ++ Js.slice (n + 5) (model request))%string
  /\ (String.length (GroqSdk.model (Groq.adaptRequest request)) + 5
      = String.length (model request))%nat.
Proof.
  intros H. unfold Groq.adaptRequest. cbn [GroqSdk.model].
  rewrite (replace_at_indexOf _ EmptyString _ n H).
  cbn [String.append String.length].
  split; [reflexivity|].
  assert (Hlen : forall a b : string,
             String.length (a ++ b)%string = (String.length a + String.length b)%nat).
  { induction a as [|c a IHa]; intros b; cbn; [reflexivity|]. rewrite IHa. reflexivity. }
  assert (Hslice : forall k (s : string),
             JsIndex.indexOf "groq:" s = Some k ->
             (String.length (JsIndex.take k s) + String.length (Js.slice (k + 5) s) + 5
              = String.length s)%nat).
  { clear. intros k s. revert k.
    induction s as [|c s IH]; intros k; cbn [JsIndex.indexOf].
    - cbn. discriminate.
    - destruct (Js.startsWith "groq:" (String c s)) eqn:Hp.
      + intros Hk; injection Hk as <-.
        cbn in Hp.
        repeat match type of Hp with
               | (if ?b then _ else false) = true =>
                   destruct b; [|discriminate Hp]
               | match ?t with EmptyString => false | String _ _ => _ end = true =>
                   destruct t; [discriminate Hp|]
               end.
        cbn. lia.
      + destruct (JsIndex.indexOf "groq:" s) as [m|]; [|discriminate].
        cbn. intros Hk; injection Hk as <-.
        specialize (IH m eq_refl). cbn. lia. }
  rewrite Hlen. apply Hslice. exact H.
Qed.

Lemma groq_model_first_occurrence_removed_witness :
  GroqSdk.model (Groq.adaptRequest (sample_request "org/groq:llama3" None))
  = "org/llama3"
  /\ (String.length
        (GroqSdk.model (Groq.adaptRequest (sample_request "org/groq:llama3" None))) + 5
      = String.length "org/groq:llama3")%nat.
Proof.
  exact (groq_model_first_occurrence_removed
           (sample_request "org/groq:llama3" None) 4 eq_refl).
Defined.

(** X4: what the Groq SDK is sent depends on the model, the messages, the
    temperature, the token limit, the stream flag, the tools and the tool
    choice of the request only: [top_p], the two penalties, [stop] and [user]
    never reach it. *)
Theorem groq_adaptRequest_ignores_unsent_fields (r1 r2 : ChatCompletionRequest) :
  model r1 = model r2 ->
  messages r1 = messages r2 ->
  temperature r1 = temperature r2 ->
  max_tokens r1 = max_tokens r2 ->
  stream r1 = stream r2 ->
  tools r1 = tools r2 ->
  tool_choice r1 = tool_choice r2 ->
  Groq.adaptRequest r1 = Groq.adaptRequest r2.
Proof.
  intros Hm Hms Ht Hmt Hs Hto Htc.
  unfold Groq.adaptRequest.
  rewrite Hm, Hms, Ht, Hmt, Hs, Hto, Htc. reflexivity.
Qed.

Lemma groq_adaptRequest_ignores_unsent_fields_witness :
  Groq.adaptRequest
    {| model := "llama3-8b-8192"; messages := [hello];
       temperature := Some "0.7"; max_tokens := Some "100"; top_p := Some "0.9";
       frequency_penalty := Some "0.1"; presence_penalty := Some "0.1";
       stop := Some "END"; user_id := Some "user-123"; stream := None;
       tools := None; tool_choice := None |}
  = Groq.adaptRequest
    {| model := "llama3-8b-8192"; messages := [hello];
       temperature := Some "0.7"; max_tokens := Some "100"; top_p := None;
       frequency_penalty := None; presence_penalty := None;
       stop := None; user_id := None; stream := None;
       tools := None; tool_choice := None |}.
Proof.
  apply groq_adaptRequest_ignores_unsent_fields; reflexivity.
Defined.

Lemma mistral_adaptMessage_same (l1 l2 : list ChatMessage) :
  Forall2 same_for_mistral l1 l2 ->
  map Mistral.adaptMessage l1 = map Mistral.adaptMessage l2.
Proof.
  induction 1 as [|m1 m2 l1 l2 (Hr & Hc & Ht) _ IH]; cbn; [reflexivity|].
  rewrite IH. unfold Mistral.adaptMessage. rewrite Hr, Hc, Ht. reflexivity.
Qed.

(** X5: what the Mistral SDK is sent depends on the model, the sampling
    fields [temperature], [max_tokens], [top_p], the stream flag, the tools
    and, message by message, the role, content and tool calls only: the
    [name] and [tool_call_id] of a message, the two penalties, [stop],
    [user] and the tool choice never reach it. *)
Theorem mistral_adaptRequest_ignores_unsent_fields (r1 r2 : ChatCompletionRequest) :
  model r1 = model r2 ->
  Forall2 same_for_mistral (messages r1) (messages r2) ->
  temperature r1 = temperature r2 ->
  max_tokens r1 = max_tokens r2 ->
  top_p r1 = top_p r2 ->
  stream r1 = stream r2 ->
  tools r1 = tools r2 ->
  Mistral.adaptRequest r1 = Mistral.adaptRequest r2.
Proof.
  intros Hm Hms Ht Hmt Hp Hs Hto.
  unfold Mistral.adaptRequest.
  rewrite Hm, (mistral_adaptMessage_same _ _ Hms), Ht, Hmt, Hp, Hs, Hto.
  reflexivity.
Qed.

Lemma mistral_adaptRequest_ignores_unsent_fields_witness :
  Mistral.adaptRequest
    {| model := "mistral-large";
       messages := [ {| role := tool; content := Some "42"; name := Some "calc";
                        tool_calls := None; tool_call_id := Some "call-1" |} ];
       temperature := None; max_tokens := None; top_p := None;
       frequency_penalty := Some "0.1"; presence_penalty := None;
       stop := Some "END"; user_id := Some "user-123"; stream := None;
       tools := None; tool_choice := Some "auto" |}
  = Mistral.adaptRequest
    {| model := "mistral-large";
       messages := [ {| role := tool; content := Some "42"; name := None;
                        tool_calls := None; tool_call_id := None |} ];
       temperature := None; max_tokens := None; top_p := None;
       frequency_penalty := None; presence_penalty := None;
       stop := None; user_id := None; stream := None;
       tools := None; tool_choice := None |}.
Proof.
  apply mistral_adaptRequest_ignores_unsent_fields; try reflexivity.
  repeat constructor.
Defined.

(** X6: Mistral's [adaptRequest] never sends an empty tools list: a request
    without tools or with an empty list is sent without the field, any other
    list is sent as it is; and the messages sent are as many as the
    request's. *)
Theorem mistral_adaptRequest_tools_never_empty (request : ChatCompletionRequest) :
  MistralSdk.tools (Mistral.adaptRequest request) <> Some []
  /\ (MistralSdk.tools (Mistral.adaptRequest request) = None
      <-> tools request = None \/ tools request = Some [])
  /\ (forall ts, ts <> [] -> tools request = Some ts ->
                 MistralSdk.tools (Mistral.adaptRequest request) = Some ts)
  /\ length (MistralSdk.messages (Mistral.adaptRequest request))
     = length (messages request).
Proof.
  unfold Mistral.adaptRequest. cbn [MistralSdk.tools MistralSdk.messages].
  rewrite length_map.
  destruct (tools request) as [[|t ts]|].
  - split; [discriminate|]. split; [tauto|]. split; [|reflexivity].
    intros ts' Hne H. injection H as <-. congruence.
  - split; [discriminate|]. split; [|split; [|reflexivity]].
    + split; [discriminate | intros [H|H]; discriminate H].
    + intros ts' _ H. exact H.
  - split; [discriminate|]. split; [tauto|]. split; [|reflexivity].
    intros ts' _ H. discriminate H.
Qed.

Lemma mistral_adaptRequest_tools_never_empty_witness :
  MistralSdk.tools
    (Mistral.adaptRequest
       {| model := "mistral-large"; messages := [hello];
          temperature := None; max_tokens := None; top_p := None;
          frequency_penalty := None; presence_penalty := None;
          stop := None; user_id := None; stream := None;
          tools := Some ["get_weather"]; tool_choice := None |})
  = Some ["get_weather"].
Proof.
  apply (proj1 (proj2 (proj2 (mistral_adaptRequest_tools_never_empty _)))).
  - discriminate.
  - reflexivity.
Defined.

(* ===================================================================== *)
(** ** Non-streaming call: every path *)
(* ===================================================================== *)

(** X7: whatever the vendor call and the adapters do, a run of
    [chatCompletion] on a request whose [stream] field is not true calls the
    vendor SDK exactly once, with the adapted request, and never again: a
    failure is not retried.  The run registers no listener, generates no id
    and yields no chunk. *)
Theorem chatCompletion_calls_sdk_once
        (v : Vendor) (request : ChatCompletionRequest)
        (options : option RequestOptions) (env : Env) (w : World) :
  truthy (stream request) = false ->
  trace (snd (provider_chatCompletion (provider_of v) request options env w))
  = trace w ++ [completion_call_event v request].
Proof.
  intros Hs.
  destruct v; cbn [provider_of provider_chatCompletion MistralProvider GroqProvider
                   completion_call_event].
  - unfold Mistral.chatCompletion, try_catch, bind, when, Mistral.client_chat,
      bind, emit.
    rewrite Hs. cbn.
    destruct (mistral_chat env (Mistral.adaptRequest request)) as [r|e]; cbn.
    + unfold Mistral.adaptResponse, unix_seconds, bind, Date_now, ret.
      destruct (MistralSdk.choices r) as [|first rest]; cbn; [reflexivity|].
      destruct (MistralSdk.usage r); cbn; reflexivity.
    + destruct (instanceof_AISuiteError e); reflexivity.
  - unfold Groq.chatCompletion, try_catch, bind, when, Groq.client_create,
      bind, emit.
    rewrite Hs. cbn.
    destruct (groq_create env (Groq.adaptRequest request)) as [[c|s]|e]; cbn;
      try reflexivity.
    destruct (instanceof_AISuiteError e); reflexivity.
Qed.

Lemma chatCompletion_calls_sdk_once_witness :
  trace (snd (Mistral.chatCompletion (sample_request "mistral-large" None) None
                (rejecting_env rate_limit_error) initial_world))
  = [MistralChat (Mistral.adaptRequest (sample_request "mistral-large" None))].
Proof.
  exact (chatCompletion_calls_sdk_once VMistral
           (sample_request "mistral-large" None) None
           (rejecting_env rate_limit_error) initial_world eq_refl).
Defined.

(** X8: every error that leaves [chatCompletion] is a canonical error: it is
    either the canonical error the vendor call itself rejected with, or an
    error made by the provider, tagged with the provider's name and of kind
    STREAMING_NOT_SUPPORTED or API_ERROR.  No plain error, [TypeError] or
    bare value gets through. *)
Theorem chatCompletion_errors_are_canonical
        (v : Vendor) (request : ChatCompletionRequest)
        (options : option RequestOptions) (env : Env) (w w' : World) (e : Thrown) :
  provider_chatCompletion (provider_of v) request options env w = (Throw e, w') ->
  instanceof_AISuiteError e = true
  /\ (completion_call env v request = Rejected e
      \/ exists addr msg code,
           e = ThrownObject addr
                 (AISuiteError msg (provider_name (provider_of v)) code)
           /\ (code = "STREAMING_NOT_SUPPORTED" \/ code = "API_ERROR")).
Proof.
  destruct v; cbn [provider_of provider_chatCompletion MistralProvider GroqProvider
                   provider_name completion_call].
  - unfold Mistral.chatCompletion, try_catch, bind, when, Mistral.client_chat,
      bind, emit.
    destruct (truthy (stream request)); cbn.
    + intros H; injection H as <- _. split; [reflexivity|]. right. eauto 7.
    + destruct (mistral_chat env (Mistral.adaptRequest request)) as [r|e0]; cbn.
      * unfold Mistral.adaptResponse, unix_seconds, bind, Date_now, ret.
        destruct (MistralSdk.choices r) as [|first rest]; cbn.
        { intros H; injection H as <- _. split; [reflexivity|]. right. eauto 7. }
        destruct (MistralSdk.usage r); cbn.
        { discriminate. }
        { intros H; injection H as <- _. split; [reflexivity|]. right. eauto 7. }
      * destruct (instanceof_AISuiteError e0) eqn:Hi; cbn.
        { intros H; injection H as <- _. split; [exact Hi | left; reflexivity]. }
        { intros H; injection H as <- _. split; [reflexivity|]. right. eauto 7. }
  - unfold Groq.chatCompletion, try_catch, bind, when, Groq.client_create,
      bind, emit.
    destruct (truthy (stream request)); cbn.
    + intros H; injection H as <- _. split; [reflexivity|]. right. eauto 7.
    + destruct (groq_create env (Groq.adaptRequest request)) as [[c|s]|e0]; cbn.
      * discriminate.
      * intros H; injection H as <- _. split; [reflexivity|]. right. eauto 7.
      * destruct (instanceof_AISuiteError e0) eqn:Hi; cbn.
        { intros H; injection H as <- _. split; [exact Hi | left; reflexivity]. }
        { intros H; injection H as <- _. split; [reflexivity|]. right. eauto 7. }
Qed.

Lemma chatCompletion_errors_are_canonical_witness :
  instanceof_AISuiteError
    (ThrownObject 100 (AISuiteError "Groq API error: Unknown error" "groq" "API_ERROR"))
  = true
  /\ (completion_call (rejecting_env (ThrownValue "Unknown error string")) VGroq
        (sample_request "llama3-8b-8192" None)
      = Rejected (ThrownObject 100
                    (AISuiteError "Groq API error: Unknown error" "groq" "API_ERROR"))
      \/ exists addr msg code,
           ThrownObject 100 (AISuiteError "Groq API error: Unknown error" "groq" "API_ERROR")
           = ThrownObject addr (AISuiteError msg "groq" code)
           /\ (code = "STREAMING_NOT_SUPPORTED" \/ code = "API_ERROR")).
Proof.
  exact (chatCompletion_errors_are_canonical VGroq
           (sample_request "llama3-8b-8192" None) None
           (rejecting_env (ThrownValue "Unknown error string")) initial_world
           _ _ eq_refl).
Defined.

(** X9: when the Mistral vendor call resolves with a response that has a
    first choice and a usage record, [chatCompletion] returns a response with
    the native id and the native model (no vendor prefix is put on it), the
    object "chat.completion", the creation time read from the clock in
    seconds (the native one is dropped), the reply built from the first
    choice, and the native usage; the clock is read once and no error object
    is allocated. *)
Theorem mistral_chatCompletion_success
        (request : ChatCompletionRequest) (options : option RequestOptions)
        (env : Env) (w : World)
        (response : MistralSdk.ChatCompletionResponse)
        (first : MistralSdk.ResponseChoice) (rest : list MistralSdk.ResponseChoice)
        (u : Usage) :
  truthy (stream request) = false ->
  mistral_chat env (Mistral.adaptRequest request) = Resolved response ->
  MistralSdk.choices response = first :: rest ->
  MistralSdk.usage response = Some u ->
  Mistral.chatCompletion request options env w =
    (Return {| id := MistralSdk.id response;
               object := "chat.completion";
               created := (date_now env (clock_reads w) / 1000)%Z;
               response_model := MistralSdk.response_model response;
               choices := [assistant_reply first];
               usage := u |},
     mkWorld (trace w ++ [MistralChat (Mistral.adaptRequest request)])
             (next_addr w) (S (clock_reads w)) (ids_generated w)).
Proof.
  intros Hs Hcall Hch Hu.
  unfold Mistral.chatCompletion, try_catch, bind, when, Mistral.client_chat,
    bind, emit.
  rewrite Hs. cbn. rewrite Hcall. cbn.
  unfold Mistral.adaptResponse, unix_seconds, bind, Date_now, ret.
  rewrite Hch, Hu. cbn. destruct u; reflexivity.
Qed.

Lemma mistral_chatCompletion_success_witness :
  Mistral.chatCompletion (sample_request "mistral-large" None) None
    (resolving_env (Some sample_usage)) initial_world =
    (Return {| id := "chatcmpl-123";
               object := "chat.completion";
               created := 1234567890;
               response_model := "mistral-large";
               choices :=
                 [ {| index := 0;
                      message :=
                        {| role := assistant;
                           content := Some "Hello! How can I help you?";
                           name := None; tool_calls := None; tool_call_id := None |};
                      finish_reason := Some "stop" |} ];
               usage := sample_usage |},
     mkWorld [MistralChat (Mistral.adaptRequest (sample_request "mistral-large" None))]
             100 1 0).
Proof.
  exact (mistral_chatCompletion_success (sample_request "mistral-large" None) None
           (resolving_env (Some sample_usage)) initial_world
           (sample_mistral_response (Some sample_usage)) _ _ sample_usage
           eq_refl eq_refl eq_refl eq_refl).
Defined.

(** X10: when the Mistral vendor call resolves with a response that has no
    choice, or no usage, the [TypeError] raised inside the adapter does not
    leave [chatCompletion]: the call rejects with a canonical error of kind
    API_ERROR tagged "mistral", whose message starts with
    "Mistral API error: ". *)
Theorem mistral_chatCompletion_malformed_response
        (request : ChatCompletionRequest) (options : option RequestOptions)
        (env : Env) (w : World) (response : MistralSdk.ChatCompletionResponse) :
  truthy (stream request) = false ->
  mistral_chat env (Mistral.adaptRequest request) = Resolved response ->
  MistralSdk.choices response = [] \/ MistralSdk.usage response = None ->
  exists msg,
    fst (Mistral.chatCompletion request options env w) =
      Throw (ThrownObject (S (next_addr w))
               (AISuiteError ("Mistral API error: " ++ msg) "mistral" "API_ERROR")).
Proof.
  intros Hs Hcall Hbad.
  unfold Mistral.chatCompletion, try_catch, bind, when, Mistral.client_chat,
    bind, emit.
  rewrite Hs. cbn. rewrite Hcall. cbn.
  unfold Mistral.adaptResponse, unix_seconds, bind, Date_now, ret.
  destruct (MistralSdk.choices response) as [|first rest]; cbn.
  - eexists; reflexivity.
  - destruct Hbad as [Hbad|Hbad]; [discriminate Hbad|].
    rewrite Hbad. cbn. eexists; reflexivity.
Qed.

Lemma mistral_chatCompletion_malformed_response_witness :
  exists msg,
    fst (Mistral.chatCompletion (sample_request "mistral-large" None) None
           (resolving_env None) initial_world) =
      Throw (ThrownObject 101
               (AISuiteError ("Mistral API error: " ++ msg) "mistral" "API_ERROR")).
Proof.
  exact (mistral_chatCompletion_malformed_response
           (sample_request "mistral-large" None) None (resolving_env None)
           initial_world (sample_mistral_response None) eq_refl eq_refl
           (or_intror eq_refl)).
Defined.

(** X11: when the Groq vendor call resolves with a completion,
    [chatCompletion] returns a response that keeps the native id, object and
    creation time (the clock is not read), puts the prefix "groq:" on the
    native model, keeps the native usage when there is one, and keeps every
    native choice, in order, with its own index, message and finish
    reason. *)
Theorem groq_chatCompletion_success
        (request : ChatCompletionRequest) (options : option RequestOptions)
        (env : Env) (w : World) (c : GroqSdk.ChatCompletion) :
  truthy (stream request) = false ->
  groq_create env (Groq.adaptRequest request) = Resolved (GroqSdk.Completion c) ->
  exists r,
    Groq.chatCompletion request options env w =
      (Return r,
       mkWorld (trace w ++ [GroqCreate (Groq.adaptRequest request)])
               (next_addr w) (clock_reads w) (ids_generated w))
    /\ id r = GroqSdk.id c
    /\ object r = GroqSdk.object c
    /\ created r = GroqSdk.created c
    /\ response_model r = ("groq:" ++ GroqSdk.response_model c)%string
    /\ (forall u, GroqSdk.usage c = Some u -> usage r = u)
    /\ Forall2 (fun native ch =>
                  index ch = GroqSdk.index native
                  /\ message ch = GroqSdk.message native
                  /\ finish_reason ch = GroqSdk.finish_reason native)
               (GroqSdk.choices c) (choices r).
Proof.
  intros Hs Hcall.
  exists (Groq.adaptResponse c).
  split.
  - unfold Groq.chatCompletion, try_catch, bind, when, Groq.client_create,
      bind, emit.
    rewrite Hs. cbn. rewrite Hcall. reflexivity.
  - unfold Groq.adaptResponse. cbn.
    repeat split.
    + intros u Hu. rewrite Hu. reflexivity.
    + induction (GroqSdk.choices c) as [|x l IH]; cbn; constructor; auto.
Qed.

Lemma groq_chatCompletion_success_witness :
  exists r,
    Groq.chatCompletion (sample_request "llama3-8b-8192" None) None
      (resolving_env (Some sample_usage)) initial_world =
      (Return r,
       mkWorld [GroqCreate (Groq.adaptRequest (sample_request "llama3-8b-8192" None))]
               100 0 0)
    /\ id r = "chatcmpl-123"
    /\ object r = "chat.completion"
    /\ created r = 1234567890%Z
    /\ response_model r = "groq:llama3-8b-8192"
    /\ (forall u, Some sample_usage = Some u -> usage r = u)
    /\ Forall2 (fun native ch =>
                  index ch = GroqSdk.index native
                  /\ message ch = GroqSdk.message native
                  /\ finish_reason ch = GroqSdk.finish_reason native)
               (GroqSdk.choices (sample_groq_completion (Some sample_usage)))
               (choices r).
Proof.
  exact (groq_chatCompletion_success (sample_request "llama3-8b-8192" None) None
           (resolving_env (Some sample_usage)) initial_world
           (sample_groq_completion (Some sample_usage)) eq_refl eq_refl).
Defined.

(* ===================================================================== *)
(** ** Streaming call: the runs in full *)
(* ===================================================================== *)

Lemma groq_loop_run (env : Env) (streamId : string)
      (evs : list GroqSdk.ChatCompletionChunk) (fin : option Thrown) (w : World) :
  for_await_events evs fin (groq_body streamId) env w =
    (stream_end fin,
     mkWorld (trace w ++ map Yield (groq_chunks env streamId (clock_reads w) evs))
             (next_addr w) (clock_reads w + length evs) (ids_generated w)).
Proof.
  revert w. induction evs as [|ev evs IH]; intros w.
  - cbn. rewrite app_nil_r, Nat.add_0_r. destruct w, fin; reflexivity.
  - cbn [for_await_events]. unfold bind at 1.
    unfold groq_body at 1, bind, Groq.adaptStreamResponse, bind, Date_now, ret,
      yield, emit.
    cbn [trace next_addr clock_reads ids_generated].
    rewrite IH. cbn [trace next_addr clock_reads ids_generated groq_chunks map length].
    rewrite <- app_assoc, Nat.add_succ_r. reflexivity.
Qed.

Lemma mistral_loop_run (env : Env) (streamId : string)
      (evs : list MistralSdk.ChatCompletionResponseChunk) (fin : option Thrown)
      (w : World) :
  Forall mistral_has_delta evs ->
  for_await_events evs fin (mistral_body streamId) env w =
    (stream_end fin,
     mkWorld (trace w ++ map Yield (mistral_chunks env streamId (clock_reads w) evs))
             (next_addr w) (clock_reads w + length evs) (ids_generated w))
  /\ length (mistral_chunks env streamId (clock_reads w) evs) = length evs.
Proof.
  intros Hall. revert w. induction Hall as [|ev evs Hev _ IH]; intros w.
  - cbn. rewrite app_nil_r, Nat.add_0_r. destruct w, fin; split; reflexivity.
  - unfold mistral_has_delta in Hev.
    cbn [for_await_events mistral_chunks]. unfold bind at 1.
    unfold mistral_body at 1, bind, Mistral.adaptStreamResponse, unix_seconds,
      bind, Date_now, ret, yield, emit.
    destruct (MistralSdk.chunk_choices ev) as [|first rest]; [congruence|].
    cbn [hd_error property_of ret trace next_addr clock_reads ids_generated].
    destruct (IH (mkWorld (trace w ++ [Yield (mistral_chunk (date_now env (clock_reads w))
                                                streamId ev first)])
                          (next_addr w) (S (clock_reads w)) (ids_generated w)))
      as [Hrun Hlen].
    cbn [trace next_addr clock_reads ids_generated] in Hrun, Hlen.
    unfold mistral_chunk at 1 in Hrun.
    rewrite Hrun. cbn [map length].
    rewrite <- app_assoc, Nat.add_succ_r, Hlen. split; reflexivity.
Qed.

Lemma mistral_chunks_stop (env : Env) (streamId : string)
      (good : list MistralSdk.ChatCompletionResponseChunk)
      (bad : MistralSdk.ChatCompletionResponseChunk)
      (rest : list MistralSdk.ChatCompletionResponseChunk) (n : nat) :
  MistralSdk.chunk_choices bad = [] ->
  mistral_chunks env streamId n (good ++ bad :: rest) =
  mistral_chunks env streamId n good.
Proof.
  intros Hbad. revert n. induction good as [|ev good IH]; intros n; cbn.
  - rewrite Hbad. reflexivity.
  - destruct (hd_error (MistralSdk.chunk_choices ev)); [|reflexivity].
    rewrite IH. reflexivity.
Qed.

Lemma mistral_loop_broken (env : Env) (streamId : string)
      (good : list MistralSdk.ChatCompletionResponseChunk)
      (bad : MistralSdk.ChatCompletionResponseChunk)
      (rest : list MistralSdk.ChatCompletionResponseChunk)
      (fin : option Thrown) (w : World) :
  Forall mistral_has_delta good ->
  MistralSdk.chunk_choices bad = [] ->
  for_await_events (good ++ bad :: rest) fin (mistral_body streamId) env w =
    (Throw (ThrownObject (next_addr w)
              (PlainError "Cannot read properties of undefined (reading 'delta')")),
     mkWorld (trace w ++ map Yield (mistral_chunks env streamId (clock_reads w) good))
             (S (next_addr w)) (S (clock_reads w + length good)) (ids_generated w)).
Proof.
  intros Hall Hbad. revert w. induction Hall as [|ev good Hev _ IH]; intros w.
  - cbn [app for_await_events]. unfold bind at 1.
    unfold mistral_body at 1, bind, Mistral.adaptStreamResponse, unix_seconds,
      bind, Date_now, ret.
    rewrite Hbad. cbn. rewrite app_nil_r, Nat.add_0_r. reflexivity.
  - unfold mistral_has_delta in Hev.
    cbn [app for_await_events mistral_chunks]. unfold bind at 1.
    unfold mistral_body at 1, bind, Mistral.adaptStreamResponse, unix_seconds,
      bind, Date_now, ret, yield, emit.
    destruct (MistralSdk.chunk_choices ev) as [|first others]; [congruence|].
    cbn [hd_error property_of ret trace next_addr clock_reads ids_generated].
    pose proof (IH (mkWorld (trace w ++ [Yield (mistral_chunk (date_now env (clock_reads w))
                                                streamId ev first)])
                          (next_addr w) (S (clock_reads w)) (ids_generated w)))
      as Hrun.
    cbn [trace next_addr clock_reads ids_generated] in Hrun.
    unfold mistral_chunk at 1 in Hrun.
    rewrite Hrun. cbn [map length].
    rewrite <- app_assoc, Nat.add_succ_r. reflexivity.
Qed.

Lemma groq_stream_run_exact
      (request : ChatCompletionRequest) (options : option RequestOptions)
      (env : Env) (w : World) (s : NativeStream GroqSdk.ChatCompletionChunk) :
  groq_create env (Groq.adaptRequest request) = Resolved (GroqSdk.Stream s) ->
  Groq.streamChatCompletion request options env w =
    (match ending s with
     | None => Return tt
     | Some e => Throw (ThrownObject (next_addr w) (streaming_error VGroq e))
     end,
     mkWorld (trace w
              ++ [GroqCreate (Groq.adaptRequest request);
                  GenerateId (id_source env (ids_generated w))]
              ++ listener_events options
              ++ map Yield (groq_chunks env (id_source env (ids_generated w))
                              (clock_reads w) (events s)))
             (match ending s with None => next_addr w | Some _ => S (next_addr w) end)
             (clock_reads w + length (events s))
             (S (ids_generated w))).
Proof.
  intros Hcall.
  set (sid := id_source env (ids_generated w)).
  unfold Groq.streamChatCompletion, try_catch.
  unfold bind at 1. unfold Groq.client_create. unfold bind at 1.
  cbn [emit]. rewrite Hcall. cbn [await ret].
  unfold bind at 1. cbn [generateId trace next_addr clock_reads ids_generated].
  fold sid.
  unfold bind at 1. rewrite listen_abort_run.
  cbn [trace next_addr clock_reads ids_generated Groq.for_await_of].
  unfold for_await.
  change (fun chunk => (c <- Groq.adaptStreamResponse chunk sid ;; yield c)%js)
    with (groq_body sid).
  rewrite groq_loop_run.
  cbn [trace next_addr clock_reads ids_generated].
  rewrite <- !app_assoc. cbn [app].
  destruct (ending s); reflexivity.
Qed.

Lemma mistral_stream_run_exact
      (request : ChatCompletionRequest) (options : option RequestOptions)
      (env : Env) (w : World)
      (s : NativeStream MistralSdk.ChatCompletionResponseChunk) :
  mistral_chatStream env (Mistral.adaptRequest request) = Resolved s ->
  Forall mistral_has_delta (events s) ->
  Mistral.streamChatCompletion request options env w =
    (match ending s with
     | None => Return tt
     | Some e => Throw (ThrownObject (next_addr w) (streaming_error VMistral e))
     end,
     mkWorld (trace w
              ++ [MistralChatStream (Mistral.adaptRequest request);
                  GenerateId (id_source env (ids_generated w))]
              ++ listener_events options
              ++ map Yield (mistral_chunks env (id_source env (ids_generated w))
                              (clock_reads w) (events s)))
             (match ending s with None => next_addr w | Some _ => S (next_addr w) end)
             (clock_reads w + length (events s))
             (S (ids_generated w))).
Proof.
  intros Hcall Hall.
  set (sid := id_source env (ids_generated w)).
  unfold Mistral.streamChatCompletion, try_catch.
  unfold bind at 1. unfold Mistral.client_chatStream. unfold bind at 1.
  cbn [emit]. rewrite Hcall. cbn [await ret].
  unfold bind at 1. cbn [generateId trace next_addr clock_reads ids_generated].
  fold sid.
  unfold bind at 1. rewrite listen_abort_run.
  cbn [trace next_addr clock_reads ids_generated].
  unfold for_await.
  change (fun chunk => (c <- Mistral.adaptStreamResponse chunk sid ;; yield c)%js)
    with (mistral_body sid).
  rewrite (proj1 (mistral_loop_run env sid (events s) (ending s) _ Hall)).
  cbn [trace next_addr clock_reads ids_generated].
  rewrite <- !app_assoc. cbn [app].
  destruct (ending s); reflexivity.
Qed.

Lemma mistral_stream_run_broken
      (request : ChatCompletionRequest) (options : option RequestOptions)
      (env : Env) (w : World)
      (s : NativeStream MistralSdk.ChatCompletionResponseChunk)
      (good : list MistralSdk.ChatCompletionResponseChunk)
      (bad : MistralSdk.ChatCompletionResponseChunk)
      (rest : list MistralSdk.ChatCompletionResponseChunk) :
  mistral_chatStream env (Mistral.adaptRequest request) = Resolved s ->
  events s = good ++ bad :: rest ->
  Forall mistral_has_delta good ->
  MistralSdk.chunk_choices bad = [] ->
  Mistral.streamChatCompletion request options env w =
    (Throw (ThrownObject (S (next_addr w))
              (AISuiteError
                 "Mistral streaming error: Cannot read properties of undefined (reading 'delta')"
                 "mistral" "STREAMING_ERROR")),
     mkWorld (trace w
              ++ [MistralChatStream (Mistral.adaptRequest request);
                  GenerateId (id_source env (ids_generated w))]
              ++ listener_events options
              ++ map Yield (mistral_chunks env (id_source env (ids_generated w))
                              (clock_reads w) good))
             (S (S (next_addr w)))
             (S (clock_reads w + length good))
             (S (ids_generated w))).
Proof.
  intros Hcall Hev Hall Hbad.
  set (sid := id_source env (ids_generated w)).
  unfold Mistral.streamChatCompletion, try_catch.
  unfold bind at 1. unfold Mistral.client_chatStream. unfold bind at 1.
  cbn [emit]. rewrite Hcall. cbn [await ret].
  unfold bind at 1. cbn [generateId trace next_addr clock_reads ids_generated].
  fold sid.
  unfold bind at 1. rewrite listen_abort_run.
  cbn [trace next_addr clock_reads ids_generated].
  unfold for_await. rewrite Hev.
  change (fun chunk => (c <- Mistral.adaptStreamResponse chunk sid ;; yield c)%js)
    with (mistral_body sid).
  rewrite (mistral_loop_broken env sid good bad rest (ending s) _ Hall Hbad).
  cbn [trace next_addr clock_reads ids_generated].
  rewrite <- !app_assoc. reflexivity.
Qed.

Lemma groq_chunks_length (env : Env) (streamId : string) (n : nat)
      (evs : list GroqSdk.ChatCompletionChunk) :
  length (groq_chunks env streamId n evs) = length evs.
Proof.
  revert n; induction evs as [|ev evs IH]; intros n; cbn; [|rewrite IH]; reflexivity.
Qed.

Lemma groq_chunks_nth (env : Env) (streamId : string)
      (evs : list GroqSdk.ChatCompletionChunk) (n k : nat) (c : ChatCompletionChunk) :
  nth_error (groq_chunks env streamId n evs) k = Some c ->
  exists ev, nth_error evs k = Some ev
             /\ c = groq_chunk (date_now env (n + k)) streamId ev.
Proof.
  revert n k. induction evs as [|ev evs IH]; intros n k; cbn.
  - destruct k; discriminate.
  - destruct k as [|k]; cbn.
    + intros H; injection H as <-. rewrite Nat.add_0_r. eauto.
    + intros H. destruct (IH (S n) k H) as (ev' & Hev & Hc).
      exists ev'. rewrite Nat.add_succ_r. auto.
Qed.

Lemma mistral_chunks_nth (env : Env) (streamId : string)
      (evs : list MistralSdk.ChatCompletionResponseChunk) (n k : nat)
      (c : ChatCompletionChunk) :
  nth_error (mistral_chunks env streamId n evs) k = Some c ->
  exists ev first,
    nth_error evs k = Some ev
    /\ hd_error (MistralSdk.chunk_choices ev) = Some first
    /\ c = mistral_chunk (date_now env (n + k)) streamId ev first.
Proof.
  revert n k. induction evs as [|ev evs IH]; intros n k; cbn.
  - destruct k; discriminate.
  - destruct (hd_error (MistralSdk.chunk_choices ev)) as [first|] eqn:Hf.
    + destruct k as [|k]; cbn.
      * intros H; injection H as <-. rewrite Nat.add_0_r. eauto.
      * intros H. destruct (IH (S n) k H) as (ev' & f' & Hev & Hf' & Hc).
        exists ev', f'. rewrite Nat.add_succ_r. auto.
    + destruct k; discriminate.
Qed.

(** X12: once the Groq vendor call has resolved with a native stream, the
    run yields one chunk for every event of the stream, in order, events
    without choices included, and then ends as the native stream does:
    normally when it ends, and with a new error of kind STREAMING_ERROR that
    carries the message of the native failure when it fails.  The chunks
    yielded before the failure stay yielded. *)
Theorem groq_stream_ends_as_native_stream
        (request : ChatCompletionRequest) (options : option RequestOptions)
        (env : Env) (w : World) (s : NativeStream GroqSdk.ChatCompletionChunk) :
  groq_create env (Groq.adaptRequest request) = Resolved (GroqSdk.Stream s) ->
  exists out,
    yielded (trace (snd (Groq.streamChatCompletion request options env w)))
    = yielded (trace w) ++ out
    /\ length out = length (events s)
    /\ fst (Groq.streamChatCompletion request options env w)
       = match ending s with
         | None => Return tt
         | Some e =>
             Throw (ThrownObject (next_addr w)
                      (AISuiteError ("Groq streaming error: " ++ message_or_unknown e)
                                    "groq" "STREAMING_ERROR"))
         end.
Proof.
  intros Hcall.
  rewrite (groq_stream_run_exact request options env w s Hcall).
  eexists. cbn [fst snd trace].
  rewrite !yielded_app, yielded_map_Yield.
  destruct (listener_events_silent options) as [-> _]. cbn [yielded app].
  split; [reflexivity|]. split; [apply groq_chunks_length|].
  destruct (ending s); reflexivity.
Qed.

Lemma groq_stream_ends_as_native_stream_witness :
  exists out,
    yielded (trace (snd (Groq.streamChatCompletion
                           (sample_request "llama3-8b-8192" (Some true)) None
                           (failing_stream_env rate_limit_error)
                           initial_world)))
    = out
    /\ length out = 2%nat
    /\ fst (Groq.streamChatCompletion
              (sample_request "llama3-8b-8192" (Some true)) None
              (failing_stream_env rate_limit_error)
              initial_world)
       = Throw (ThrownObject 100
                  (AISuiteError "Groq streaming error: API rate limit exceeded"
                                "groq" "STREAMING_ERROR")).
Proof.
  exact (groq_stream_ends_as_native_stream
           (sample_request "llama3-8b-8192" (Some true)) None
           (failing_stream_env rate_limit_error) initial_world
           (mkStream sample_groq_events (Some rate_limit_error)) eq_refl).
Defined.

(** X13: in a Groq run the clock is read exactly once per event, and the
    k-th chunk yielded is stamped with the k-th of these readings as it
    stands, in milliseconds; the creation time of the native event is not
    used. *)
Theorem groq_stream_chunks_stamped_in_milliseconds
        (request : ChatCompletionRequest) (options : option RequestOptions)
        (env : Env) (w : World) (s : NativeStream GroqSdk.ChatCompletionChunk) :
  groq_create env (Groq.adaptRequest request) = Resolved (GroqSdk.Stream s) ->
  exists out,
    yielded (trace (snd (Groq.streamChatCompletion request options env w)))
    = yielded (trace w) ++ out
    /\ clock_reads (snd (Groq.streamChatCompletion request options env w))
       = (clock_reads w + length (events s))%nat
    /\ forall k c, nth_error out k = Some c ->
                   chunk_created c = date_now env (clock_reads w + k).
Proof.
  intros Hcall.
  rewrite (groq_stream_run_exact request options env w s Hcall).
  eexists. cbn [fst snd trace clock_reads].
  rewrite !yielded_app, yielded_map_Yield.
  destruct (listener_events_silent options) as [-> _]. cbn [yielded app].
  split; [reflexivity|]. split; [reflexivity|].
  intros k c Hk.
  destruct (groq_chunks_nth _ _ _ _ _ _ Hk) as (ev & _ & ->). reflexivity.
Qed.

Lemma groq_stream_chunks_stamped_in_milliseconds_witness :
  exists out,
    yielded (trace (snd (Groq.streamChatCompletion
                           (sample_request "llama3-8b-8192" (Some true)) None
                           (resolving_env None) initial_world)))
    = out
    /\ clock_reads (snd (Groq.streamChatCompletion
                           (sample_request "llama3-8b-8192" (Some true)) None
                           (resolving_env None) initial_world))
       = 2%nat
    /\ forall k c, nth_error out k = Some c ->
                   chunk_created c = sample_clock k.
Proof.
  exact (groq_stream_chunks_stamped_in_milliseconds
           (sample_request "llama3-8b-8192" (Some true)) None (resolving_env None)
           initial_world (mkStream sample_groq_events None) eq_refl).
Defined.

(** X14: once the Mistral vendor call has resolved with a native stream
    whose events all have a choice, the run yields one chunk per event and
    ends as the native stream does: normally, or with a new error of kind
    STREAMING_ERROR that carries the message of the native failure, the
    chunks yielded before it staying yielded.  The k-th chunk is stamped with
    the k-th clock reading of the run, in whole seconds. *)
Theorem mistral_stream_ends_as_native_stream
        (request : ChatCompletionRequest) (options : option RequestOptions)
        (env : Env) (w : World)
        (s : NativeStream MistralSdk.ChatCompletionResponseChunk) :
  mistral_chatStream env (Mistral.adaptRequest request) = Resolved s ->
  Forall mistral_has_delta (events s) ->
  exists out,
    yielded (trace (snd (Mistral.streamChatCompletion request options env w)))
    = yielded (trace w) ++ out
    /\ length out = length (events s)
    /\ (forall k c, nth_error out k = Some c ->
                    chunk_created c = (date_now env (clock_reads w + k) / 1000)%Z)
    /\ fst (Mistral.streamChatCompletion request options env w)
       = match ending s with
         | None => Return tt
         | Some e =>
             Throw (ThrownObject (next_addr w)
                      (AISuiteError ("Mistral streaming error: " ++ message_or_unknown e)
                                    "mistral" "STREAMING_ERROR"))
         end.
Proof.
  intros Hcall Hall.
  rewrite (mistral_stream_run_exact request options env w s Hcall Hall).
  eexists. cbn [fst snd trace].
  rewrite !yielded_app, yielded_map_Yield.
  destruct (listener_events_silent options) as [-> _]. cbn [yielded app].
  split; [reflexivity|].
  split; [exact (proj2 (mistral_loop_run env _ (events s) None w Hall))|].
  split.
  - intros k c Hk.
    destruct (mistral_chunks_nth _ _ _ _ _ _ Hk) as (ev & first & _ & _ & ->).
    reflexivity.
  - destruct (ending s); reflexivity.
Qed.

Lemma mistral_stream_ends_as_native_stream_witness :
  exists out,
    yielded (trace (snd (Mistral.streamChatCompletion
                           (sample_request "mistral-large" None) None
                           (failing_stream_env (ThrownValue "connection lost"))
                           initial_world)))
    = out
    /\ length out = 2%nat
    /\ (forall k c, nth_error out k = Some c ->
                    chunk_created c = (sample_clock k / 1000)%Z)
    /\ fst (Mistral.streamChatCompletion
              (sample_request "mistral-large" None) None
              (failing_stream_env (ThrownValue "connection lost")) initial_world)
       = Throw (ThrownObject 100
                  (AISuiteError "Mistral streaming error: Unknown error"
                                "mistral" "STREAMING_ERROR")).
Proof.
  refine (mistral_stream_ends_as_native_stream
            (sample_request "mistral-large" None) None
            (failing_stream_env (ThrownValue "connection lost")) initial_world
            (mkStream sample_mistral_events (Some (ThrownValue "connection lost")))
            eq_refl _).
  repeat constructor; discriminate.
Defined.

Lemma mistral_chunks_adapted (env : Env) (streamId : string)
      (evs : list MistralSdk.ChatCompletionResponseChunk) (n : nat) :
  Forall mistral_has_delta evs ->
  Forall2 (mistral_adapted streamId) evs (mistral_chunks env streamId n evs).
Proof.
  intros Hall. revert n.
  induction Hall as [|ev evs Hev _ IH]; intros n; cbn; [constructor|].
  unfold mistral_has_delta in Hev.
  destruct (MistralSdk.chunk_choices ev) as [|first others] eqn:Hch; [congruence|].
  cbn. constructor; [|apply IH].
  unfold mistral_adapted, chunk_content, mistral_event_content, first_delta.
  rewrite Hch. cbn. repeat split; reflexivity.
Qed.

(** X15: when a native Mistral stream holds an event without choices, the
    run yields the chunks of the events before the first such event and
    then fails with an error of kind STREAMING_ERROR tagged "mistral", even
    if the native stream itself does not fail: the events after the
    choiceless one are never turned into chunks. *)
Theorem mistral_stream_stops_at_choiceless_event
        (request : ChatCompletionRequest) (options : option RequestOptions)
        (env : Env) (w : World)
        (s : NativeStream MistralSdk.ChatCompletionResponseChunk)
        (good : list MistralSdk.ChatCompletionResponseChunk)
        (bad : MistralSdk.ChatCompletionResponseChunk)
        (rest : list MistralSdk.ChatCompletionResponseChunk) :
  mistral_chatStream env (Mistral.adaptRequest request) = Resolved s ->
  events s = good ++ bad :: rest ->
  Forall mistral_has_delta good ->
  MistralSdk.chunk_choices bad = [] ->
  exists out msg,
    yielded (trace (snd (Mistral.streamChatCompletion request options env w)))
    = yielded (trace w) ++ out
    /\ length out = length good
    /\ Forall2 (mistral_adapted (id_source env (ids_generated w))) good out
    /\ fst (Mistral.streamChatCompletion request options env w)
       = Throw (ThrownObject (S (next_addr w))
                  (AISuiteError ("Mistral streaming error: " ++ msg)
                                "mistral" "STREAMING_ERROR")).
Proof.
  intros Hcall Hev Hall Hbad.
  rewrite (mistral_stream_run_broken request options env w s good bad rest
             Hcall Hev Hall Hbad).
  eexists; eexists. cbn [fst snd trace].
  rewrite !yielded_app, yielded_map_Yield.
  destruct (listener_events_silent options) as [-> _]. cbn [yielded app].
  split; [reflexivity|].
  split; [exact (proj2 (mistral_loop_run env _ good None w Hall))|].
  split; [|reflexivity].
  apply mistral_chunks_adapted. exact Hall.
Qed.

Lemma mistral_stream_stops_at_choiceless_event_witness :
  exists out msg,
    yielded (trace (snd (Mistral.streamChatCompletion
                           (sample_request "mistral-large" None) None
                           broken_stream_env initial_world)))
    = out
    /\ length out = 1%nat
    /\ Forall2 (mistral_adapted "chatcmpl-k3j9x0q2m")
               (firstn 1 sample_mistral_events) out
    /\ fst (Mistral.streamChatCompletion
              (sample_request "mistral-large" None) None
              broken_stream_env initial_world)
       = Throw (ThrownObject 101
                  (AISuiteError ("Mistral streaming error: " ++ msg)
                                "mistral" "STREAMING_ERROR")).
Proof.
  refine (mistral_stream_stops_at_choiceless_event
            (sample_request "mistral-large" None) None broken_stream_env
            initial_world _ (firstn 1 sample_mistral_events) choiceless_event
            (skipn 1 sample_mistral_events) eq_refl eq_refl _ eq_refl).
  repeat constructor; discriminate.
Defined.

Lemma mistral_events_split (evs : list MistralSdk.ChatCompletionResponseChunk) :
  Forall mistral_has_delta evs
  \/ exists good bad rest,
       evs = good ++ bad :: rest
       /\ Forall mistral_has_delta good
       /\ MistralSdk.chunk_choices bad = [].
Proof.
  induction evs as [|ev evs IH].
  - left. constructor.
  - destruct (MistralSdk.chunk_choices ev) as [|first others] eqn:Hch.
    + right. exists [], ev, evs. repeat split; [constructor | exact Hch].
    + assert (Hev : mistral_has_delta ev)
        by (unfold mistral_has_delta; congruence).
      destruct IH as [Hall | (good & bad & rest & -> & Hall & Hbad)].
      * left. constructor; assumption.
      * right. exists (ev :: good), bad, rest.
        repeat split; [constructor; assumption | exact Hbad].
Qed.

Lemma mistral_chunks_shape (env : Env) (streamId : string)
      (evs : list MistralSdk.ChatCompletionResponseChunk) (n : nat) :
  Forall (fun c => chunk_id c = streamId
                   /\ chunk_object c = "chat.completion.chunk"
                   /\ single_assistant_choice c)
         (mistral_chunks env streamId n evs)
  /\ length (mistral_chunks env streamId n evs) <= length evs.
Proof.
  revert n. induction evs as [|ev evs IH]; intros n; cbn.
  - split; [constructor | lia].
  - destruct (hd_error (MistralSdk.chunk_choices ev)) as [first|].
    + destruct (IH (S n)) as [HF Hlen]. split; [|cbn; lia].
      constructor; [|exact HF].
      repeat split. unfold single_assistant_choice. cbn. eauto.
    + split; [constructor | cbn; lia].
Qed.

(** X16: in every run of Mistral's streaming call, whatever the native
    stream delivers and however the run ends, each chunk yielded has the id
    of the stream, the object "chat.completion.chunk" and exactly one choice,
    of index 0 and role assistant; there are never more chunks than native
    events. *)
Theorem mistral_stream_chunk_shape
        (request : ChatCompletionRequest) (options : option RequestOptions)
        (env : Env) (w : World)
        (s : NativeStream MistralSdk.ChatCompletionResponseChunk) :
  mistral_chatStream env (Mistral.adaptRequest request) = Resolved s ->
  exists out,
    yielded (trace (snd (Mistral.streamChatCompletion request options env w)))
    = yielded (trace w) ++ out
    /\ length out <= length (events s)
    /\ Forall (fun c => chunk_id c = id_source env (ids_generated w)
                        /\ chunk_object c = "chat.completion.chunk"
                        /\ single_assistant_choice c) out.
Proof.
  intros Hcall.
  exists (mistral_chunks env (id_source env (ids_generated w)) (clock_reads w) (events s)).
  destruct (mistral_chunks_shape env (id_source env (ids_generated w))
              (events s) (clock_reads w)) as [HF Hlen].
  split; [|split; assumption].
  destruct (mistral_events_split (events s))
    as [Hall | (good & bad & rest & Hev & Hall & Hbad)].
  - rewrite (mistral_stream_run_exact request options env w s Hcall Hall).
    cbn [snd trace].
    rewrite !yielded_app, yielded_map_Yield.
    destruct (listener_events_silent options) as [-> _]. reflexivity.
  - rewrite (mistral_stream_run_broken request options env w s good bad rest
               Hcall Hev Hall Hbad).
    cbn [snd trace].
    rewrite !yielded_app, yielded_map_Yield.
    destruct (listener_events_silent options) as [-> _].
    rewrite Hev, (mistral_chunks_stop env _ good bad rest _ Hbad). reflexivity.
Qed.

Lemma mistral_stream_chunk_shape_witness :
  exists out,
    yielded (trace (snd (Mistral.streamChatCompletion
                           (sample_request "mistral-large" None) None
                           broken_stream_env initial_world)))
    = out
    /\ length out <= 3
    /\ Forall (fun c => chunk_id c = "chatcmpl-k3j9x0q2m"
                        /\ chunk_object c = "chat.completion.chunk"
                        /\ single_assistant_choice c) out.
Proof.
  exact (mistral_stream_chunk_shape (sample_request "mistral-large" None) None
           broken_stream_env initial_world _ eq_refl).
Defined.

Lemma stream_setup_failure_exact
      (v : Vendor) (request : ChatCompletionRequest)
      (options : option RequestOptions) (env : Env) (w : World) (cause : Thrown) :
  stream_call env v request = Rejected cause ->
  provider_streamChatCompletion (provider_of v) request options env w =
    (Throw (ThrownObject (next_addr w) (streaming_error v cause)),
     mkWorld (trace w ++ [stream_call_event v request])
             (S (next_addr w)) (clock_reads w) (ids_generated w)).
Proof.
  intros Hcall. destruct v.
  - apply stream_call_mistral in Hcall.
    cbn [provider_of provider_streamChatCompletion MistralProvider stream_call_event].
    unfold Mistral.streamChatCompletion, try_catch, bind,
      Mistral.client_chatStream, bind, emit.
    cbn. rewrite Hcall. reflexivity.
  - apply stream_call_groq in Hcall.
    cbn [provider_of provider_streamChatCompletion GroqProvider stream_call_event].
    unfold Groq.streamChatCompletion, try_catch, bind,
      Groq.client_create, bind, emit.
    cbn. rewrite Hcall. reflexivity.
Qed.

Lemma groq_stream_not_iterable
      (request : ChatCompletionRequest) (options : option RequestOptions)
      (env : Env) (w : World) (c : GroqSdk.ChatCompletion) :
  groq_create env (Groq.adaptRequest request) = Resolved (GroqSdk.Completion c) ->
  exists m w',
    Groq.streamChatCompletion request options env w =
      (Throw (ThrownObject (S (next_addr w))
                (streaming_error VGroq (ThrownObject (next_addr w) (PlainError m)))),
       w')
    /\ next_addr w' = S (S (next_addr w)).
Proof.
  intros Hcall.
  unfold Groq.streamChatCompletion, try_catch.
  unfold bind at 1. unfold Groq.client_create. unfold bind at 1.
  cbn [emit]. rewrite Hcall. cbn [await ret].
  unfold bind at 1. cbn [generateId trace next_addr clock_reads ids_generated].
  unfold bind at 1. rewrite listen_abort_run.
  cbn. eexists; eexists; split; reflexivity.
Qed.

(** X17: every error that leaves [streamChatCompletion] is an error object
    made by the run itself, at an address that was free when the run began
    and is the last one allocated: a canonical error of kind STREAMING_ERROR
    tagged with the provider's name, whose message is the vendor's label and
    " streaming error: " followed by the message of the cause, or by
    "Unknown error" when the cause is no [Error].  The cause is the value
    the vendor call rejected with, or the failure the native stream ended
    with, or a [TypeError] that the run raised, allocated just before the
    error that wraps it. *)
Theorem streamChatCompletion_errors_are_streaming_errors
        (v : Vendor) (request : ChatCompletionRequest)
        (options : option RequestOptions) (env : Env) (w w' : World) (e : Thrown) :
  provider_streamChatCompletion (provider_of v) request options env w = (Throw e, w') ->
  exists addr cause,
    e = ThrownObject addr
          (AISuiteError (vendor_label v ++ " streaming error: " ++ message_or_unknown cause)
                        (provider_name (provider_of v)) "STREAMING_ERROR")
    /\ next_addr w <= addr
    /\ next_addr w' = S addr
    /\ ((stream_call env v request = Rejected cause /\ addr = next_addr w)
        \/ (stream_ending env v request = Some cause /\ addr = next_addr w)
        \/ (exists m, cause = ThrownObject (next_addr w) (PlainError m)
                      /\ addr = S (next_addr w))).
Proof.
  intros Hrun.
  destruct (stream_call env v request) as [[]|cause] eqn:Hcall.
  - destruct v.
    + destruct (stream_call_resolved_mistral env request Hcall) as [s Hs].
      cbn [provider_of provider_streamChatCompletion MistralProvider] in Hrun.
      destruct (mistral_events_split (events s))
        as [Hall | (good & bad & rest & Hev & Hall & Hbad)].
      * rewrite (mistral_stream_run_exact request options env w s Hs Hall) in Hrun.
        destruct (ending s) as [cause|] eqn:Hend; [|discriminate Hrun].
        injection Hrun as <- <-.
        exists (next_addr w), cause.
        split; [reflexivity|]. split; [lia|]. split; [reflexivity|].
        right; left. split; [|reflexivity].
        unfold stream_ending. rewrite Hs. exact Hend.
      * rewrite (mistral_stream_run_broken request options env w s good bad rest
                   Hs Hev Hall Hbad) in Hrun.
        injection Hrun as <- <-.
        exists (S (next_addr w)),
               (ThrownObject (next_addr w)
                  (PlainError "Cannot read properties of undefined (reading 'delta')")).
        split; [reflexivity|]. split; [lia|]. split; [reflexivity|].
        right; right. eauto.
    + destruct (stream_call_resolved_groq env request Hcall) as [[c|s] Hr].
      * cbn [provider_of provider_streamChatCompletion GroqProvider] in Hrun.
        destruct (groq_stream_not_iterable request options env w c Hr)
          as (m & w0 & Hexact & Hnext).
        rewrite Hexact in Hrun. injection Hrun as <- <-.
        exists (S (next_addr w)), (ThrownObject (next_addr w) (PlainError m)).
        split; [reflexivity|]. split; [lia|]. split; [exact Hnext|].
        right; right. eauto.
      * cbn [provider_of provider_streamChatCompletion GroqProvider] in Hrun.
        rewrite (groq_stream_run_exact request options env w s Hr) in Hrun.
        destruct (ending s) as [cause|] eqn:Hend; [|discriminate Hrun].
        injection Hrun as <- <-.
        exists (next_addr w), cause.
        split; [reflexivity|]. split; [lia|]. split; [reflexivity|].
        right; left. split; [|reflexivity].
        unfold stream_ending. rewrite Hr. exact Hend.
  - rewrite (stream_setup_failure_exact v request options env w cause Hcall) in Hrun.
    injection Hrun as <- <-.
    exists (next_addr w), cause.
    split; [reflexivity|]. split; [lia|]. split; [reflexivity|].
    left. split; reflexivity.
Qed.

Lemma streamChatCompletion_errors_are_streaming_errors_witness :
  exists addr cause,
    ThrownObject 100 (AISuiteError "Mistral streaming error: Custom error" "mistral"
                                   "STREAMING_ERROR")
    = ThrownObject addr
        (AISuiteError ("Mistral streaming error: " ++ message_or_unknown cause)
                      "mistral" "STREAMING_ERROR")
    /\ 100 <= addr
    /\ 101 = S addr
    /\ ((stream_call (rejecting_env custom_error) VMistral
           (sample_request "mistral-large" None) = Rejected cause
         /\ addr = 100)
        \/ (stream_ending (rejecting_env custom_error) VMistral
              (sample_request "mistral-large" None) = Some cause
            /\ addr = 100)
        \/ (exists m, cause = ThrownObject 100 (PlainError m) /\ addr = 101)).
Proof.
  exact (streamChatCompletion_errors_are_streaming_errors VMistral
           (sample_request "mistral-large" None) None (rejecting_env custom_error)
           initial_world _ _ eq_refl).
Defined.

Lemma sdk_calls_app (t1 t2 : list Event) :
  sdk_calls (t1 ++ t2) = sdk_calls t1 ++ sdk_calls t2.
Proof. apply filter_app. Qed.

Lemma listeners_app (t1 t2 : list Event) :
  listeners (t1 ++ t2) = listeners t1 ++ listeners t2.
Proof.
  induction t1 as [|x t1 IH]; [reflexivity|].
  destruct x; cbn; rewrite IH; reflexivity.
Qed.

Lemma yields_have_no_calls_nor_listeners (out : list ChatCompletionChunk) :
  sdk_calls (map Yield out) = [] /\ listeners (map Yield out) = [].
Proof.
  induction out as [|c out [IH1 IH2]]; cbn; auto.
Qed.

Lemma listener_events_listeners (options : option RequestOptions) :
  sdk_calls (listener_events options) = []
  /\ listeners (listener_events options)
     = match signal_of options with Some sg => [sg] | None => [] end.
Proof.
  unfold listener_events. destruct (signal_of options); split; reflexivity.
Qed.

Lemma call_then_id (ev : Event) (i : string) (t : list Event) :
  sdk_calls (ev :: GenerateId i :: t) = sdk_calls [ev] ++ sdk_calls t
  /\ listeners (ev :: GenerateId i :: t) = listeners [ev] ++ listeners t.
Proof.
  split.
  - cbn. destruct (is_sdk_call ev); reflexivity.
  - destruct ev; reflexivity.
Qed.

Lemma stream_setup_failure_trace
      (v : Vendor) (request : ChatCompletionRequest)
      (options : option RequestOptions) (env : Env) (w : World) (e : Thrown) :
  stream_call env v request = Rejected e ->
  trace (snd (provider_streamChatCompletion (provider_of v) request options env w))
  = trace w ++ [stream_call_event v request].
Proof.
  intros Hcall. destruct v.
  - apply stream_call_mistral in Hcall.
    cbn [provider_of provider_streamChatCompletion MistralProvider stream_call_event].
    unfold Mistral.streamChatCompletion, try_catch, bind,
      Mistral.client_chatStream, bind, emit.
    cbn. rewrite Hcall. reflexivity.
  - apply stream_call_groq in Hcall.
    cbn [provider_of provider_streamChatCompletion GroqProvider stream_call_event].
    unfold Groq.streamChatCompletion, try_catch, bind,
      Groq.client_create, bind, emit.
    cbn. rewrite Hcall. reflexivity.
Qed.

Lemma stream_resolved_trace
      (v : Vendor) (request : ChatCompletionRequest)
      (options : option RequestOptions) (env : Env) (w : World) :
  stream_call env v request = Resolved tt ->
  exists out,
    trace (snd (provider_streamChatCompletion (provider_of v) request options env w))
    = trace w
      ++ [stream_call_event v request; GenerateId (id_source env (ids_generated w))]
      ++ listener_events options ++ map Yield out.
Proof.
  intros Hcall. destruct v.
  - destruct (stream_call_resolved_mistral env request Hcall) as [s Hs].
    destruct (mistral_stream_run request options env w s Hs)
      as (o & w' & out & Hrun & Htr & _).
    exists out. cbn [provider_of provider_streamChatCompletion MistralProvider].
    rewrite Hrun. exact Htr.
  - destruct (stream_call_resolved_groq env request Hcall) as [r Hr].
    destruct (groq_stream_run request options env w r Hr)
      as (o & w' & out & Hrun & Htr & _).
    exists out. cbn [provider_of provider_streamChatCompletion GroqProvider].
    rewrite Hrun. exact Htr.
Qed.

(** X18: every run of [streamChatCompletion] calls the vendor SDK exactly
    once, with the adapted request, whether the call resolves or rejects and
    however the stream ends.  When the call resolves, the run registers one
    abort listener if the caller gave a signal and none otherwise; when the
    call rejects, no listener is registered. *)
Theorem streamChatCompletion_calls_sdk_once
        (v : Vendor) (request : ChatCompletionRequest)
        (options : option RequestOptions) (env : Env) (w : World) :
  sdk_calls (trace (snd (provider_streamChatCompletion (provider_of v)
                           request options env w)))
  = sdk_calls (trace w) ++ [stream_call_event v request]
  /\ (stream_call env v request = Resolved tt ->
      listeners (trace (snd (provider_streamChatCompletion (provider_of v)
                               request options env w)))
      = listeners (trace w)
        ++ match signal_of options with Some sg => [sg] | None => [] end)
  /\ (forall e, stream_call env v request = Rejected e ->
      listeners (trace (snd (provider_streamChatCompletion (provider_of v)
                               request options env w)))
      = listeners (trace w)).
Proof.
  assert (Hev : sdk_calls [stream_call_event v request] = [stream_call_event v request]
                /\ listeners [stream_call_event v request] = [])
    by (destruct v; split; reflexivity).
  destruct Hev as [Hev1 Hev2].
  destruct (stream_call env v request) as [[]|e] eqn:Hcall.
  - destruct (stream_resolved_trace v request options env w Hcall) as [out Htr].
    rewrite Htr.
    destruct (yields_have_no_calls_nor_listeners out) as [Hy1 Hy2].
    destruct (listener_events_listeners options) as [Hl1 Hl2].
    split; [|split].
    + cbn [app]. rewrite sdk_calls_app, (proj1 (call_then_id _ _ _)).
      rewrite sdk_calls_app, Hl1, Hy1, Hev1. reflexivity.
    + intros _. cbn [app]. rewrite listeners_app, (proj2 (call_then_id _ _ _)).
      rewrite listeners_app, Hl2, Hy2, Hev2, app_nil_r. reflexivity.
    + intros e He. discriminate He.
  - rewrite (stream_setup_failure_trace v request options env w e Hcall).
    split; [|split].
    + rewrite sdk_calls_app, Hev1. reflexivity.
    + intros H. discriminate H.
    + intros e' _. rewrite listeners_app, Hev2, app_nil_r. reflexivity.
Qed.

Lemma streamChatCompletion_calls_sdk_once_witness :
  listeners (trace (snd (Groq.streamChatCompletion
                           (sample_request "llama3-8b-8192" (Some true))
                           (Some (mkOptions (Some 7%nat)))
                           (resolving_env None) initial_world)))
  = [7%nat].
Proof.
  exact (proj1 (proj2 (streamChatCompletion_calls_sdk_once VGroq
                         (sample_request "llama3-8b-8192" (Some true))
                         (Some (mkOptions (Some 7%nat)))
                         (resolving_env None) initial_world))
               eq_refl).
Defined.

Lemma groq_chunks_kept (env : Env) (streamId : string)
      (evs : list GroqSdk.ChatCompletionChunk) (n : nat) :
  Forall2 groq_event_kept evs (groq_chunks env streamId n evs).
Proof.
  revert n. induction evs as [|ev evs IH]; intros n; cbn; constructor; [|apply IH].
  unfold groq_event_kept, groq_chunk. cbn. split; [reflexivity|].
  induction (GroqSdk.chunk_choices ev) as [|x l IHl]; cbn; constructor;
    [repeat split | exact IHl].
Qed.

Lemma mistral_chunks_kept (env : Env) (streamId : string)
      (evs : list MistralSdk.ChatCompletionResponseChunk) (n : nat) :
  Forall mistral_has_delta evs ->
  Forall2 mistral_first_choice_kept evs (mistral_chunks env streamId n evs).
Proof.
  intros Hall. revert n.
  induction Hall as [|ev evs Hev _ IH]; intros n; cbn; [constructor|].
  unfold mistral_has_delta in Hev.
  destruct (MistralSdk.chunk_choices ev) as [|first others] eqn:Hch; [congruence|].
  cbn. constructor; [|apply IH].
  exists first. rewrite Hch. repeat split.
Qed.

(** X19: the chunks of a Groq run keep the native events whole: the k-th
    chunk carries the model of the k-th event with the prefix "groq:" and as
    many choices as the event has, each with the index, delta and finish
    reason of its native choice. *)
Theorem groq_stream_keeps_every_choice
        (request : ChatCompletionRequest) (options : option RequestOptions)
        (env : Env) (w : World) (s : NativeStream GroqSdk.ChatCompletionChunk) :
  groq_create env (Groq.adaptRequest request) = Resolved (GroqSdk.Stream s) ->
  exists out,
    yielded (trace (snd (Groq.streamChatCompletion request options env w)))
    = yielded (trace w) ++ out
    /\ Forall2 groq_event_kept (events s) out.
Proof.
  intros Hcall.
  rewrite (groq_stream_run_exact request options env w s Hcall).
  eexists. cbn [snd trace].
  rewrite !yielded_app, yielded_map_Yield.
  destruct (listener_events_silent options) as [-> _]. cbn [yielded app].
  split; [reflexivity | apply groq_chunks_kept].
Qed.

Lemma groq_stream_keeps_every_choice_witness :
  exists out,
    yielded (trace (snd (Groq.streamChatCompletion
                           (sample_request "llama3-8b-8192" (Some true)) None
                           (resolving_env None) initial_world)))
    = out
    /\ Forall2 groq_event_kept sample_groq_events out.
Proof.
  exact (groq_stream_keeps_every_choice
           (sample_request "llama3-8b-8192" (Some true)) None (resolving_env None)
           initial_world (mkStream sample_groq_events None) eq_refl).
Defined.

(** X20: the chunks of a Mistral run over events that all have a choice
    keep the first choice of each event only: the k-th chunk carries the
    model of the k-th event without prefix and one choice with the content,
    the tool calls and the finish reason of the event's first choice, the
    index set to 0 and the role set to assistant; the other choices, the
    native index and the native role are dropped. *)
Theorem mistral_stream_keeps_first_choice
        (request : ChatCompletionRequest) (options : option RequestOptions)
        (env : Env) (w : World)
        (s : NativeStream MistralSdk.ChatCompletionResponseChunk) :
  mistral_chatStream env (Mistral.adaptRequest request) = Resolved s ->
  Forall mistral_has_delta (events s) ->
  exists out,
    yielded (trace (snd (Mistral.streamChatCompletion request options env w)))
    = yielded (trace w) ++ out
    /\ Forall2 mistral_first_choice_kept (events s) out.
Proof.
  intros Hcall Hall.
  rewrite (mistral_stream_run_exact request options env w s Hcall Hall).
  eexists. cbn [snd trace].
  rewrite !yielded_app, yielded_map_Yield.
  destruct (listener_events_silent options) as [-> _]. cbn [yielded app].
  split; [reflexivity | apply mistral_chunks_kept; exact Hall].
Qed.

Lemma mistral_stream_keeps_first_choice_witness :
  exists out,
    yielded (trace (snd (Mistral.streamChatCompletion
                           (sample_request "mistral-large" None) None
                           (resolving_env None) initial_world)))
    = out
    /\ Forall2 mistral_first_choice_kept sample_mistral_events out.
Proof.
  refine (mistral_stream_keeps_first_choice
            (sample_request "mistral-large" None) None (resolving_env None)
            initial_world (mkStream sample_mistral_events None) eq_refl _).
  repeat constructor; discriminate.
Defined.
